(** * Template smoketest: a shallow embedding of pkg/templates/smoketest.go

    The Go package drives one fixed template topology (a config map and a
    batch job) through the cluster API: it creates a template, launches a
    template instance from it, watches the instance until a terminal
    condition or a timeout, validates the objects the instance produced and
    deletes what it created.

    The embedding keeps the shape of the source.  Pointers are [option]
    values ([None] is nil) and a dereference of nil panics; Go maps and
    slices keep the difference between nil and empty that reflect.DeepEqual
    observes; the cluster client, the clock and the JSON decoder are
    interfaces of the environment; every function of the Smoketest type is a
    computation in a state monad over the world of the environment and a
    trace of the calls made; Run, the one function that defers calls, also
    carries the stack of its deferred calls. *)

From Stdlib Require Import ZArith Ascii String List Lia Bool.
From stdpp Require Import base option gmap strings list pretty.

Local Open Scope Z_scope.
Local Open Scope string_scope.
Local Open Scope list_scope.

(** ** Go values *)

(** A Go map keeps nil apart from the empty map; reflect.DeepEqual tells
    them apart, lookups and ranging do not.  A map[string]string that is
    compared is therefore an [option (gmap string string)], [None] being
    nil, and a []string that is compared an [option (list string)]. *)

(** reflect.DeepEqual on two values of the same map or slice type: both nil,
    or both non-nil with the same entries (for slices, in the same order). *)
Definition DeepEqual {A : Type} `{EqDecision A} (x y : A) : bool :=
  bool_decide (x = y).

(** Reading a key of a map[string]string: the zero value when absent. *)
Definition index (m : gmap string string) (k : string) : string :=
  default "" (m !! k).

(** []byte(v): the bytes of a string. *)
Definition bytes_of (v : string) : list Byte.byte := list_byte_of_string v.

(** The source's raw string constants hold double quotes; they are written
    here with an apostrophe in each such place, which [lit] turns into the
    double quote (code 34).  No constant of the source holds an apostrophe. *)
Definition requote (c : ascii) : ascii :=
  if Ascii.eqb c "'"%char then ascii_of_nat 34 else c.

Fixpoint lit (s : string) : string :=
  match s with
  | EmptyString => EmptyString
  | String c rest => String (requote c) (lit rest)
  end.

Arguments lit : simpl never.

(** ** Time *)

(** A time.Time as nanoseconds since the Unix epoch. *)
Definition Time := Z.

(** A time.Duration: nanoseconds in an int64. *)
Definition Duration := Z.

Definition maxDuration : Z := 2 ^ 63 - 1.
Definition minDuration : Z := - 2 ^ 63.

(** Time.Sub: the difference, kept inside the range of a Duration. *)
Definition Sub (t u : Time) : Duration :=
  Z.max minDuration (Z.min maxDuration (t - u)).

(** Time.Unix: whole seconds since the epoch. *)
Definition Unix (t : Time) : Z := t / 1000000000.

(** strconv.FormatInt(x, 10). *)
Definition FormatInt10 (x : Z) : string := pretty x.

(** ** Errors *)

(** The package-level error values, and the errors of the cluster client,
    which are values of their own and never one of the package's. *)
Inductive error : Type :=
  | ErrInitTest
  | ErrCreateTemplate
  | ErrCreateInstance
  | ErrLaunchInstanceFailed
  | ErrLaunchInstanceTimeout
  | ErrInstanceInvalid
  | ErrUnknown
  | APIError (msg : string).

(** error.Error(): the tag a caller reports. *)
Definition Error (e : error) : string :=
  match e with
  | ErrInitTest => "InitTestFailed"
  | ErrCreateTemplate => "CreateTemplateFailed"
  | ErrCreateInstance => "CreateTemplateInstanceFailed"
  | ErrLaunchInstanceFailed => "LaunchTemplateInstanceFailed"
  | ErrLaunchInstanceTimeout => "LaunchTemplateInstanceTimeout"
  | ErrInstanceInvalid => "ValidateTemplateInstanceFailed"
  | ErrUnknown => "Unknown"
  | APIError msg => msg
  end.

#[global] Instance error_eq_dec : EqDecision error.
Proof. solve_decision. Defined.

(** ** API objects (the fields the package reads or writes) *)

Record ObjectMeta : Type := mkMeta {
  Name : string;
  Labels : option (gmap string string)
}.

Record TemplateParameter : Type := mkTemplateParameter {
  ParamName : string;
  Description : string;
  DisplayName : string
}.

Record Template : Type := mkTemplate {
  TemplateMeta : ObjectMeta;
  Objects : list string;
  ObjectLabels : option (gmap string string);
  TemplateParameters : list TemplateParameter
}.

Record Secret : Type := mkSecret {
  SecretMeta : ObjectMeta;
  SecretData : gmap string (list Byte.byte)
}.

Record TemplateInstanceCondition : Type := mkCondition {
  CondType : string;
  CondStatus : string
}.

Record TemplateInstance : Type := mkInstance {
  InstanceMeta : ObjectMeta;
  SpecTemplate : Template;
  SpecSecret : option string;
  Conditions : list TemplateInstanceCondition
}.

Record ConfigMap : Type := mkConfigMap {
  ConfigMapMeta : ObjectMeta;
  Data : option (gmap string string)
}.

Record Container : Type := mkContainer {
  ContainerName : string;
  Args : option (list string)
}.

Record Job : Type := mkJob {
  JobMeta : ObjectMeta;
  Containers : list Container
}.

(** templatev1.TemplateInstanceReady and
    templatev1.TemplateInstanceInstantiateFailure *)
Definition TemplateInstanceReady : string := "Ready".
Definition TemplateInstanceInstantiateFailure : string := "InstantiateFailure".

(** corev1.ConditionTrue *)
Definition ConditionTrue : string := "True".

(** watch.Modified *)
Definition Modified : string := "MODIFIED".

(** metav1.DeletePropagationForeground *)
Definition DeletePropagationForeground : string := "Foreground".

Record DeleteOptions : Type := mkDeleteOptions {
  PropagationPolicy : option string
}.

(** The dynamic value of a watch event's Object: a *TemplateInstance (the
    pointer may be nil) or anything else, the nil interface included. *)
Inductive runtime_Object : Type :=
  | ObjTemplateInstance (p : option TemplateInstance)
  | ObjOther.

Record Event : Type := mkEvent {
  EventType : string;
  Object : runtime_Object
}.

(** A handle on an open watch (watch.Interface). *)
Definition Watcher := nat.

(** ** The environment: cluster client, clock and JSON decoder *)

(** The client interfaces held by a Smoketest (templateInterface and
    k8sInterface), the wall clock and encoding/json, over a world [W] that
    the package never inspects.  Every client call returns what the Go call
    returns, a result pointer and an error, each of which may be nil. *)
Class Environment (W : Type) : Type := {
  Templates_Create : string -> Template -> W -> (option Template * option error) * W;
  Templates_Get : string -> string -> W -> (option Template * option error) * W;
  Templates_Delete : string -> string -> DeleteOptions -> W -> option error * W;
  Secrets_Create : string -> Secret -> W -> (option Secret * option error) * W;
  Secrets_Delete : string -> string -> DeleteOptions -> W -> option error * W;
  TemplateInstances_Create :
    string -> TemplateInstance -> W -> (option TemplateInstance * option error) * W;
  TemplateInstances_Watch :
    string -> ObjectMeta -> W -> (option Watcher * option error) * W;
  TemplateInstances_Delete : string -> string -> DeleteOptions -> W -> option error * W;
  ConfigMaps_Get : string -> string -> W -> (option ConfigMap * option error) * W;
  Jobs_Get : string -> string -> W -> (option Job * option error) * W;
  Watcher_Stop : Watcher -> W -> W;
  time_Now : W -> Time * W;
  (** json.Unmarshal(data, &v) for v of type []string: the new value of v
      and the error. *)
  json_Unmarshal : list Byte.byte -> option (list string) -> option (list string) * option error
}.

(** ** Traces, deferred calls and the monad *)

(** A deferred call of [Run], with its arguments as they were evaluated at
    the defer statement. *)
Inductive Deferred : Type :=
  | DeferDeleteTemplate (ns : string) (template : option Template)
  | DeferDeleteSecret (ns : string) (secret : option Secret)
  | DeferDeleteTemplateInstance (ns : string) (instance : option TemplateInstance).

(** What a run leaves in its trace: each client call (a create with what it
    returned), each stop of a watcher, and each deferred call as it starts. *)
Inductive Entry : Type :=
  | CallTemplatesCreate (ns : string) (req : Template) (res : option Template) (err : option error)
  | CallTemplatesGet (ns name : string)
  | CallTemplatesDelete (ns name : string) (opts : DeleteOptions)
  | CallSecretsCreate (ns : string) (req : Secret) (res : option Secret) (err : option error)
  | CallSecretsDelete (ns name : string) (opts : DeleteOptions)
  | CallInstancesCreate (ns : string) (req : TemplateInstance)
      (res : option TemplateInstance) (err : option error)
  | CallInstancesWatch (ns : string) (meta : ObjectMeta)
  | CallInstancesDelete (ns name : string) (opts : DeleteOptions)
  | CallConfigMapsGet (ns name : string)
  | CallJobsGet (ns name : string)
  | CallWatcherStop (w : Watcher)
  | RunDeferred (d : Deferred).

Inductive panic : Type :=
  | NilDereference
  | IndexOutOfRange
  | TypeAssertionFailed.

(** A Go call either returns or panics. *)
Inductive outcome (A : Type) : Type :=
  | Returned (a : A)
  | Panicked (p : panic).

Arguments Returned {A} a.
Arguments Panicked {A} p.

Record State (W : Type) : Type := mkState {
  world : W;
  trace : list Entry
}.

Arguments mkState {W} world trace.
Arguments world {W} s.
Arguments trace {W} s.

Definition M (W A : Type) : Type := State W -> outcome A * State W.

#[global] Instance M_ret {W} : MRet (M W) :=
  fun A (a : A) s => (Returned a, s).

#[global] Instance M_bind {W} : MBind (M W) :=
  fun A B (f : A -> M W B) (m : M W A) s =>
    match m s with
    | (Returned a, s') => f a s'
    | (Panicked p, s') => (Panicked p, s')
    end.

Definition raise {W A} (p : panic) : M W A := fun s => (Panicked p, s).

(** Reading through a pointer. *)
Definition deref {W A} (p : option A) : M W A :=
  match p with
  | Some a => mret a
  | None => raise NilDereference
  end.

(** A call into the environment, recorded in the trace. *)
Definition call {W A} (op : W -> A * W) (entry : A -> Entry) : M W A :=
  fun s =>
    let '(a, w) := op (world s) in
    (Returned a, mkState w (trace s ++ [entry a])).

(** The same, for an operation that returns nothing. *)
Definition exec {W} (op : W -> W) (entry : Entry) : M W unit :=
  fun s => (Returned tt, mkState (op (world s)) (trace s ++ [entry])).

(** time.Now() *)
Definition Now {W} `{Environment W} : M W Time :=
  fun s =>
    let '(t, w) := time_Now (world s) in
    (Returned t, mkState w (trace s)).

(** A function body that defers calls: it also threads the stack of the
    calls deferred so far, which survives a panic. *)
Definition Frame (W A : Type) : Type :=
  list Deferred -> State W -> outcome A * list Deferred * State W.

#[global] Instance Frame_ret {W} : MRet (Frame W) :=
  fun A (a : A) ds s => (Returned a, ds, s).

#[global] Instance Frame_bind {W} : MBind (Frame W) :=
  fun A B (f : A -> Frame W B) (m : Frame W A) ds s =>
    match m ds s with
    | (Returned a, ds', s') => f a ds' s'
    | (Panicked p, ds', s') => (Panicked p, ds', s')
    end.

(** A call of a function that defers nothing. *)
Definition lift {W A} (m : M W A) : Frame W A :=
  fun ds s => let '(out, s') := m s in (out, ds, s').

(** The defer statement: push the call, its arguments evaluated. *)
Definition defer {W} (d : Deferred) : Frame W unit :=
  fun ds s => (Returned tt, d :: ds, s).

(** ** The Smoketest type and its constants *)

Definition configMapJSON : string := lit "
{
	'apiVersion': 'v1',
	'kind': 'ConfigMap',
	'metadata': {
		'name': 'test-configmap-${ID}'
	},
	'data': {
		'foo': 'bar',
		'simpleParam': '${SIMPLE_PARAM}'
	}
}
".

Definition jobJSON : string := lit "
{
	'apiVersion':  'batch/v1',
	'kind': 'Job',
	'metadata': {
		'name': 'test-job-${ID}'
	},
	'spec': {
		'backoffLimit': 1,
		'template': {
			'spec': {
				'restartPolicy': 'Never',
				'containers': [
					{
						'name': 'bash',
						'image': 'centos:7',
						'command': [ '/bin/bash', '-c', '--' ],
						'args': '${{JSON_PARAM}}'
					}
				]
			}
		}
	}
}
".

(** The Smoketest struct: its namespace; the client interfaces it holds are
    the [Environment]. *)
Record Smoketest : Type := mkSmoketest {
  namespace : string
}.

(** The condition test of the watch loop: cond.Type == ty && cond.Status ==
    corev1.ConditionTrue. *)
Definition condition_is (ty : string) (cond : TemplateInstanceCondition) : bool :=
  String.eqb (CondType cond) ty && String.eqb (CondStatus cond) ConditionTrue.

(** What launchTemplateInstanceCheck returns: the instance, the secret, the
    launch duration (the Duration whose Seconds() the source returns; the
    zero value is the zero Duration) and the error. *)
Definition LaunchResult : Type :=
  (option TemplateInstance * option Secret * Duration * option error)%type.

Section Smoketest.

Context {W : Type} `{Env : Environment W}.

(** The local testTemplate of createTemplateCheck (source lines 175-210). *)
Definition testTemplate (id : string) : Template :=
  let templateName := "smoketest-template-" +:+ id in
  {| TemplateMeta := {| Name := templateName; Labels := None |};
     Objects := [configMapJSON; jobJSON];
     ObjectLabels :=
       Some (<["this" := "that"]>
              (<["google" := "kubernetes"]> (<["redhat" := "openshift"]> ∅)));
     TemplateParameters :=
       [ {| ParamName := "ID";
            Description := "An identifier for all objects in the template instance.";
            DisplayName := "ID" |};
         {| ParamName := "SIMPLE_PARAM";
            Description := "A simple parameter for a template.";
            DisplayName := "Simple Parameter" |};
         {| ParamName := "JSON_PARAM";
            Description := "A JSON or YAML-formatted parameter.";
            DisplayName := "JSON Parameter" |} ] |}.

(** createTemplateCheck (source lines 172-218) *)
Definition createTemplateCheck (t : Smoketest) (namespace id : string)
  : M W (option Template * option error) :=
  let testTemplate := testTemplate id in
  '(result, err) ← call (Templates_Create namespace testTemplate)
                        (fun r => CallTemplatesCreate namespace testTemplate r.1 r.2);
  match err with
  | Some _ => mret (result, Some ErrCreateTemplate)
  | None =>
      _ ← deref result;
      mret (result, None)
  end.

(** deleteSecret (source lines 221-232) *)
Definition deleteSecret (t : Smoketest) (namespace : string) (secret : option Secret)
  : M W (option error) :=
  match secret with
  | None => mret None
  | Some s =>
      let opts := {| PropagationPolicy := None |} in
      err ← call (Secrets_Delete namespace (Name (SecretMeta s)) opts)
                 (fun _ => CallSecretsDelete namespace (Name (SecretMeta s)) opts);
      match err with
      | Some e => mret (Some e)
      | None => mret None
      end
  end.

(** deleteTemplate (source lines 235-246) *)
Definition deleteTemplate (t : Smoketest) (namespace : string) (template : option Template)
  : M W (option error) :=
  match template with
  | None => mret None
  | Some tpl =>
      let opts := {| PropagationPolicy := None |} in
      err ← call (Templates_Delete namespace (Name (TemplateMeta tpl)) opts)
                 (fun _ => CallTemplatesDelete namespace (Name (TemplateMeta tpl)) opts);
      match err with
      | Some e => mret (Some e)
      | None => mret None
      end
  end.

(** deleteTemplateInstance (source lines 250-264) *)
Definition deleteTemplateInstance (t : Smoketest) (namespace : string)
    (instance : option TemplateInstance) : M W (option error) :=
  match instance with
  | None => mret None
  | Some ti =>
      let deletePolicy := DeletePropagationForeground in
      let opts := {| PropagationPolicy := Some deletePolicy |} in
      err ← call (TemplateInstances_Delete namespace (Name (InstanceMeta ti)) opts)
                 (fun _ => CallInstancesDelete namespace (Name (InstanceMeta ti)) opts);
      match err with
      | Some e => mret (Some e)
      | None => mret None
      end
  end.

(** The secret that launchTemplateInstanceCheck builds from the parameters
    (source lines 287-296): each value as bytes. *)
Definition paramSecret (templateName : string) (params : gmap string string) : Secret :=
  let data := bytes_of <$> params in
  {| SecretMeta := {| Name := templateName +:+ "-secret"; Labels := None |};
     SecretData := data |}.

(** The instance it asks for (source lines 304-314): the fetched template
    by value, the secret by name. *)
Definition instanceRequest (templateName : string) (template : Template) (secret : Secret)
  : TemplateInstance :=
  {| InstanceMeta := {| Name := templateName +:+ "-instance"; Labels := None |};
     SpecTemplate := template;
     SpecSecret := Some (Name (SecretMeta secret));
     Conditions := [] |}.

(** getDummyTemplateParams (source lines 267-273) *)
Definition getDummyTemplateParams (t : Smoketest) (id : string) : gmap string string :=
  <["ID" := id]>
    (<["SIMPLE_PARAM" := "test"]>
      (<["JSON_PARAM" := lit "[ 'echo', 'Hello world' ]"]> ∅)).

(** The locals configMapName, expectedData and jobName of
    validateTemplateInstance. *)
Definition configMapName (params : gmap string string) : string :=
  "test-configmap-" +:+ index params "ID".

Definition expectedData (params : gmap string string) : option (gmap string string) :=
  Some (<["foo" := "bar"]> (<["simpleParam" := index params "SIMPLE_PARAM"]> ∅)).

Definition jobName (params : gmap string string) : string :=
  "test-job-" +:+ index params "ID".

(** validateTemplateInstance (source lines 371-408) *)
Definition validateTemplateInstance (t : Smoketest) (instance : TemplateInstance)
    (template : Template) (params : gmap string string) : M W (option error) :=
  if negb (DeepEqual (Labels (TemplateMeta template)) (Labels (InstanceMeta instance)))
  then mret (Some ErrInstanceInvalid)
  else
    let configMapName := configMapName params in
    '(configMap, err) ← call (ConfigMaps_Get (namespace t) configMapName)
                             (fun _ => CallConfigMapsGet (namespace t) configMapName);
    match err with
    | Some _ => mret (Some ErrLaunchInstanceFailed)
    | None =>
        let expectedData := expectedData params in
        cm ← deref configMap;
        if negb (DeepEqual expectedData (Data cm))
        then mret (Some ErrInstanceInvalid)
        else
          let expectedArgs : option (list string) := Some [] in
          let '(expectedArgs, err) :=
            json_Unmarshal (bytes_of (index params "JSON_PARAM")) expectedArgs in
          match err with
          | Some _ => mret (Some ErrUnknown)
          | None =>
              let jobName := jobName params in
              '(job, err) ← call (Jobs_Get (namespace t) jobName)
                                 (fun _ => CallJobsGet (namespace t) jobName);
              match err with
              | Some _ => mret (Some ErrLaunchInstanceFailed)
              | None =>
                  j ← deref job;
                  match Containers j with
                  | [] => raise IndexOutOfRange
                  | c :: _ =>
                      let actualArgs := Args c in
                      if negb (DeepEqual expectedArgs actualArgs)
                      then mret (Some ErrInstanceInvalid)
                      else mret None
                  end
              end
          end
    end.

(** The range loop over ti.Status.Conditions inside the watch loop (source
    lines 340-360).  [Some r]: a return statement ran with r; [None]: the
    loop ran to its end. *)
Fixpoint conditionsLoop (t : Smoketest) (watcher : Watcher) (ti : TemplateInstance)
    (template : Template) (params : gmap string string) (secretResult : option Secret)
    (duration : Duration) (conds : list TemplateInstanceCondition)
  : M W (option LaunchResult) :=
  match conds with
  | [] => mret None
  | cond :: rest =>
      if condition_is TemplateInstanceReady cond then
        _ ← exec (Watcher_Stop watcher) (CallWatcherStop watcher);
        err ← validateTemplateInstance t ti template params;
        mret (Some (Some ti, secretResult, duration, err))
      else if condition_is TemplateInstanceInstantiateFailure cond then
        _ ← exec (Watcher_Stop watcher) (CallWatcherStop watcher);
        mret (Some (Some ti, secretResult, duration, Some ErrLaunchInstanceFailed))
      else
        conditionsLoop t watcher ti template params secretResult duration rest
  end.

(** event.Object.( *templatev1.TemplateInstance ) *)
Definition assertTemplateInstance (o : runtime_Object) : M W (option TemplateInstance) :=
  match o with
  | ObjTemplateInstance p => mret p
  | ObjOther => raise TypeAssertionFailed
  end.

(** The for/select loop (source lines 329-368).  [sched] is what the select
    statement receives, in order: the events it takes from the watcher's
    result channel before it takes the timeout channel; when [sched] is
    used up the timeout case runs.  (A closed result channel delivers the
    zero Event, whose type is the empty string.)  [ti] is the instance the
    variable ti points to; it is never nil when the loop is entered. *)
Fixpoint watchLoop (t : Smoketest) (watcher : Watcher) (template : Template)
    (params : gmap string string) (secretResult : option Secret) (launchStart : Time)
    (ti : TemplateInstance) (sched : list Event) : M W LaunchResult :=
  match sched with
  | [] =>
      now ← Now;
      let duration := Sub now launchStart in
      mret (Some ti, secretResult, duration, Some ErrLaunchInstanceTimeout)
  | event :: sched' =>
      if String.eqb (EventType event) Modified then
        now ← Now;
        let duration := Sub now launchStart in
        p ← assertTemplateInstance (Object event);
        ti' ← deref p;
        r ← conditionsLoop t watcher ti' template params secretResult duration
              (Conditions ti');
        match r with
        | Some res => mret res
        | None => watchLoop t watcher template params secretResult launchStart ti' sched'
        end
      else
        now ← Now;
        let duration := Sub now launchStart in
        mret (Some ti, secretResult, duration, Some ErrUnknown)
  end.

(** launchTemplateInstanceCheck (source lines 276-369).  [timeoutInterval]
    arms the timer; which events win the race against it is [sched]. *)
Definition launchTemplateInstanceCheck (t : Smoketest) (namespace templateName id : string)
    (timeoutInterval : Z) (sched : list Event) : M W LaunchResult :=
  let duration : Duration := 0 in
  let params := getDummyTemplateParams t id in
  '(template, err) ← call (Templates_Get namespace templateName)
                          (fun _ => CallTemplatesGet namespace templateName);
  match err with
  | Some _ => mret (None, None, duration, Some ErrCreateTemplate)
  | None =>
      tpl ← deref template;
      let secret := paramSecret templateName params in
      '(secretResult, err) ← call (Secrets_Create namespace secret)
                                  (fun r => CallSecretsCreate namespace secret r.1 r.2);
      match err with
      | Some _ => mret (None, secretResult, duration, Some ErrCreateInstance)
      | None =>
          _ ← deref secretResult;
          launchStart ← Now;
          let request := instanceRequest templateName tpl secret in
          '(ti, err) ← call (TemplateInstances_Create namespace request)
                            (fun r => CallInstancesCreate namespace request r.1 r.2);
          match err with
          | Some _ => mret (None, secretResult, duration, Some ErrCreateInstance)
          | None =>
              ti0 ← deref ti;
              '(watcher, err) ← call (TemplateInstances_Watch namespace (InstanceMeta ti0))
                                     (fun _ => CallInstancesWatch namespace (InstanceMeta ti0));
              match err with
              | Some _ => mret (ti, secretResult, duration, Some ErrUnknown)
              | None =>
                  w ← deref watcher;
                  watchLoop t w tpl params secretResult launchStart ti0 sched
              end
          end
      end
  end.

(** Running one deferred call: the trace notes that it starts; what it
    returns is dropped, as the defer statement drops it. *)
Definition runDeferred (t : Smoketest) (d : Deferred) : M W unit :=
  _ ← exec (fun w => w) (RunDeferred d);
  _ ← match d with
      | DeferDeleteTemplate ns template => deleteTemplate t ns template
      | DeferDeleteSecret ns secret => deleteSecret t ns secret
      | DeferDeleteTemplateInstance ns instance => deleteTemplateInstance t ns instance
      end;
  mret tt.

(** The deferred calls of a frame run last in, first out, whether the frame
    returned or panicked. *)
Fixpoint runAllDeferred (t : Smoketest) (ds : list Deferred) (s : State W) : State W :=
  match ds with
  | [] => s
  | d :: ds' => runAllDeferred t ds' (runDeferred t d s).2
  end.

Definition withDeferred {A : Type} (t : Smoketest) (body : Frame W A) : M W A :=
  fun s =>
    let '(out, ds, s1) := body [] s in
    (out, runAllDeferred t ds s1).

(** The body of Run (source lines 143-169); the deferred log lines have no
    effect and are left out. *)
Definition RunBody (t : Smoketest) (keepObjects : bool) (timeout : Z) (sched : list Event)
  : Frame W (Duration * option error) :=
  let workspace := namespace t in
  now ← lift Now;
  let id := FormatInt10 (Unix now) in
  '(template, err) ← lift (createTemplateCheck t workspace id);
  _ ← (if negb keepObjects then defer (DeferDeleteTemplate workspace template) else mret tt);
  match err with
  | Some e => mret (0, Some e)
  | None =>
      tpl ← lift (deref template);
      '(ti, secret, duration, err) ←
        lift (launchTemplateInstanceCheck t workspace (Name (TemplateMeta tpl)) id
                timeout sched);
      _ ← (if negb keepObjects then defer (DeferDeleteSecret workspace secret) else mret tt);
      _ ← (if negb keepObjects then defer (DeferDeleteTemplateInstance workspace ti) else mret tt);
      match err with
      | Some e => mret (duration, Some e)
      | None => mret (duration, None)
      end
  end.

(** Run: the body, then its deferred calls. *)
Definition Run (t : Smoketest) (keepObjects : bool) (timeout : Z) (sched : list Event)
  : M W (Duration * option error) :=
  withDeferred t (RunBody t keepObjects timeout sched).

End Smoketest.

(** ** An in-memory environment

    A cluster that keeps its objects in maps keyed by namespace and name, in
    the manner of the fake clientsets the package's tests use: a create of an
    existing name, and a get or a delete of a missing one, fail.  Every call
    takes a quarter of a second, and a reading of the clock one second; a
    cluster may refuse to open watches.  Its
    JSON decoder reads arrays of strings with the one-letter escapes, and
    null; any other text is an error.  The concrete runs below use it. *)
Module InMemory.

Record Cluster : Type := mkCluster {
  templates : gmap (string * string) Template;
  secrets : gmap (string * string) Secret;
  instances : gmap (string * string) TemplateInstance;
  configMaps : gmap (string * string) ConfigMap;
  jobs : gmap (string * string) Job;
  clock : Time;
  opened : nat;
  stopped : list Watcher;
  refuseWatch : bool
}.

Definition tick (d : Z) (c : Cluster) : Cluster :=
  mkCluster (templates c) (secrets c) (instances c) (configMaps c) (jobs c)
            (clock c + d) (opened c) (stopped c) (refuseWatch c).

Definition callTime : Z := 250000000.
Definition readTime : Z := 1000000000.

Definition notFound : error := APIError "not found".
Definition alreadyExists : error := APIError "already exists".
Definition forbidden : error := APIError "forbidden".

Definition getFrom {A : Type} (m : gmap (string * string) A) (ns name : string)
  : option A * option error :=
  match m !! (ns, name) with
  | Some a => (Some a, None)
  | None => (None, Some notFound)
  end.

Definition withTemplates (m : gmap (string * string) Template) (c : Cluster) : Cluster :=
  mkCluster m (secrets c) (instances c) (configMaps c) (jobs c)
            (clock c) (opened c) (stopped c) (refuseWatch c).

Definition withSecrets (m : gmap (string * string) Secret) (c : Cluster) : Cluster :=
  mkCluster (templates c) m (instances c) (configMaps c) (jobs c)
            (clock c) (opened c) (stopped c) (refuseWatch c).

Definition withInstances (m : gmap (string * string) TemplateInstance) (c : Cluster)
  : Cluster :=
  mkCluster (templates c) (secrets c) m (configMaps c) (jobs c)
            (clock c) (opened c) (stopped c) (refuseWatch c).

Definition createIn {A : Type} (m : gmap (string * string) A) (ns name : string) (a : A)
  : (option A * option error) * gmap (string * string) A :=
  match m !! (ns, name) with
  | Some _ => ((None, Some alreadyExists), m)
  | None => ((Some a, None), <[(ns, name) := a]> m)
  end.

Definition deleteIn {A : Type} (m : gmap (string * string) A) (ns name : string)
  : option error * gmap (string * string) A :=
  match m !! (ns, name) with
  | Some _ => (None, delete (ns, name) m)
  | None => (Some notFound, m)
  end.

(** *** The JSON decoder *)

Definition isSpace (c : ascii) : bool :=
  match nat_of_ascii c with
  | 32%nat | 9%nat | 10%nat | 13%nat => true
  | _ => false
  end.

Fixpoint skipSpace (s : string) : string :=
  match s with
  | String c rest => if isSpace c then skipSpace rest else s
  | EmptyString => s
  end.

Definition quote : ascii := ascii_of_nat 34.
Definition backslash : ascii := ascii_of_nat 92.

Definition unescape (c : ascii) : option ascii :=
  if Ascii.eqb c quote then Some quote
  else if Ascii.eqb c backslash then Some backslash
  else if Ascii.eqb c "/"%char then Some "/"%char
  else if Ascii.eqb c "b"%char then Some (ascii_of_nat 8)
  else if Ascii.eqb c "f"%char then Some (ascii_of_nat 12)
  else if Ascii.eqb c "n"%char then Some (ascii_of_nat 10)
  else if Ascii.eqb c "r"%char then Some (ascii_of_nat 13)
  else if Ascii.eqb c "t"%char then Some (ascii_of_nat 9)
  else None.

(** The text after an opening quote: the string it spells and the rest. *)
Fixpoint stringBody (s : string) : option (string * string) :=
  match s with
  | EmptyString => None
  | String c rest =>
      if Ascii.eqb c quote then Some (EmptyString, rest)
      else if Ascii.eqb c backslash then
        match rest with
        | String e rest' =>
            match unescape e, stringBody rest' with
            | Some c', Some (body, after) => Some (String c' body, after)
            | _, _ => None
            end
        | EmptyString => None
        end
      else if (nat_of_ascii c <? 32)%nat then None
      else
        match stringBody rest with
        | Some (body, after) => Some (String c body, after)
        | None => None
        end
  end.

(** The elements after the first, up to the closing bracket. *)
Fixpoint moreElements (fuel : nat) (s : string) : option (list string * string) :=
  match fuel with
  | O => None
  | S fuel' =>
      match skipSpace s with
      | String "]" after => Some ([], after)
      | String "," rest =>
          match skipSpace rest with
          | String c body =>
              if Ascii.eqb c quote then
                match stringBody body with
                | Some (x, after) =>
                    match moreElements fuel' after with
                    | Some (xs, after') => Some (x :: xs, after')
                    | None => None
                    end
                | None => None
                end
              else None
          | EmptyString => None
          end
      | _ => None
      end
  end.

Definition syntaxError : error := APIError "invalid JSON for []string".

Definition decodeStrings (text : string) (v : option (list string))
  : option (list string) * option error :=
  match skipSpace text with
  | String "n" (String "u" (String "l" (String "l" after))) =>
      match skipSpace after with
      | EmptyString => (None, None)
      | _ => (v, Some syntaxError)
      end
  | String "[" rest =>
      let parsed :=
        match skipSpace rest with
        | String "]" after => Some ([], after)
        | String c body =>
            if Ascii.eqb c quote then
              match stringBody body with
              | Some (x, after) =>
                  match moreElements (String.length after) after with
                  | Some (xs, after') => Some (x :: xs, after')
                  | None => None
                  end
              | None => None
              end
            else None
        | EmptyString => None
        end in
      match parsed with
      | Some (xs, after) =>
          match skipSpace after with
          | EmptyString => (Some xs, None)
          | _ => (v, Some syntaxError)
          end
      | None => (v, Some syntaxError)
      end
  | _ => (v, Some syntaxError)
  end.

#[global] Instance environment : Environment Cluster := {
  Templates_Create ns obj c :=
    let '(r, m) := createIn (templates c) ns (Name (TemplateMeta obj)) obj in
    (r, tick callTime (withTemplates m c));
  Templates_Get ns name c := (getFrom (templates c) ns name, tick callTime c);
  Templates_Delete ns name _ c :=
    let '(r, m) := deleteIn (templates c) ns name in
    (r, tick callTime (withTemplates m c));
  Secrets_Create ns obj c :=
    let '(r, m) := createIn (secrets c) ns (Name (SecretMeta obj)) obj in
    (r, tick callTime (withSecrets m c));
  Secrets_Delete ns name _ c :=
    let '(r, m) := deleteIn (secrets c) ns name in
    (r, tick callTime (withSecrets m c));
  TemplateInstances_Create ns obj c :=
    let '(r, m) := createIn (instances c) ns (Name (InstanceMeta obj)) obj in
    (r, tick callTime (withInstances m c));
  TemplateInstances_Watch ns meta c :=
    if refuseWatch c then ((None, Some forbidden), tick callTime c)
    else
      ((Some (opened c), None),
       tick callTime
         (mkCluster (templates c) (secrets c) (instances c) (configMaps c) (jobs c)
                    (clock c) (S (opened c)) (stopped c) (refuseWatch c)));
  TemplateInstances_Delete ns name _ c :=
    let '(r, m) := deleteIn (instances c) ns name in
    (r, tick callTime (withInstances m c));
  ConfigMaps_Get ns name c := (getFrom (configMaps c) ns name, tick callTime c);
  Jobs_Get ns name c := (getFrom (jobs c) ns name, tick callTime c);
  Watcher_Stop w c :=
    mkCluster (templates c) (secrets c) (instances c) (configMaps c) (jobs c)
              (clock c) (opened c) (w :: stopped c) (refuseWatch c);
  time_Now c := (clock c, tick readTime c);
  json_Unmarshal data v := decodeStrings (string_of_list_byte data) v
}.

End InMemory.

(** ** Initialisation (NewSmoketest and init)

    What the five loading steps of init answer in the process at hand: the
    namespace of the kubeconfig, its REST configuration, and the three
    clients built from it.  A client constructor answers with a client or
    with an error; the clients themselves are the [Environment]. *)
Record Loading : Type := mkLoading {
  kubeconfig_Namespace : string * option error;
  kubeconfig_ClientConfig : option error;
  templatev1client_NewForConfig : option error;
  projectv1client_NewForConfig : option error;
  kubernetes_NewForConfig : option error
}.

Inductive InitStep : Type :=
  | LoadNamespace
  | LoadClientConfig
  | NewTemplateClient
  | NewProjectClient
  | NewK8sClient.

(** The Smoketest struct with its three interface fields, each set or nil,
    as init leaves it. *)
Record Handle : Type := mkHandle {
  handleNamespace : string;
  templateInterface : bool;
  projectInterface : bool;
  k8sInterface : bool
}.

(** The Smoketest the checks run on: they read the namespace; the
    interfaces are the [Environment]. *)
Definition smoketestOf (h : Handle) : Smoketest :=
  {| namespace := handleNamespace h |}.

(** init (source lines 97-134): the fields it leaves, the error, and the
    steps it made, in order. *)
Definition init (l : Loading) (t : Handle) : Handle * option error * list InitStep :=
  let '(namespace, err) := kubeconfig_Namespace l in
  match err with
  | Some _ => (t, Some ErrInitTest, [LoadNamespace])
  | None =>
      let t := mkHandle namespace (templateInterface t) (projectInterface t)
                        (k8sInterface t) in
      match kubeconfig_ClientConfig l with
      | Some _ => (t, Some ErrInitTest, [LoadNamespace; LoadClientConfig])
      | None =>
          match templatev1client_NewForConfig l with
          | Some _ =>
              (t, Some ErrInitTest, [LoadNamespace; LoadClientConfig; NewTemplateClient])
          | None =>
              match projectv1client_NewForConfig l with
              | Some _ =>
                  (t, Some ErrInitTest,
                   [LoadNamespace; LoadClientConfig; NewTemplateClient; NewProjectClient])
              | None =>
                  match kubernetes_NewForConfig l with
                  | Some _ =>
                      (t, Some ErrInitTest,
                       [LoadNamespace; LoadClientConfig; NewTemplateClient;
                        NewProjectClient; NewK8sClient])
                  | None =>
                      (mkHandle (handleNamespace t) true true true, None,
                       [LoadNamespace; LoadClientConfig; NewTemplateClient;
                        NewProjectClient; NewK8sClient])
                  end
              end
          end
      end
  end.

(** NewSmoketest (source lines 91-95): a fresh struct, initialised; the
    struct is returned with the error. *)
Definition NewSmoketest (l : Loading) : Handle * option error * list InitStep :=
  let smoketest := mkHandle "" false false false in
  init l smoketest.

(** ** The monitor command (cmd/monitor/monitor.go)

    A GaugeVec with the two labels result and reason: one value per pair of
    label values.  The values are kept as the source computes them before
    their conversion to float64: a time for the gauge set to the current
    time, a Duration for the two others. *)
Record Gauges : Type := mkGauges {
  templateTestGauge : gmap (string * string) Z;
  templateLaunchGauge : gmap (string * string) Z;
  totalDurationGauge : gmap (string * string) Z
}.

(** The label values publishResult derives from the error (monitor.go
    lines 124-129). *)
Definition resultLabels (err : option error) : string * string :=
  let result := "success" in
  let reason := "" in
  match err with
  | Some e => ("failure", Error e)
  | None => (result, reason)
  end.

Section Monitor.

Context {W : Type} `{Env : Environment W}.

(** publishResult (monitor.go lines 123-133) *)
Definition publishResult (g : Gauges) (launchDuration totalDuration : Duration)
    (err : option error) : M W Gauges :=
  let labels := resultLabels err in
  now ← Now;
  mret {| templateTestGauge := <[labels := now]> (templateTestGauge g);
          templateLaunchGauge := <[labels := launchDuration]> (templateLaunchGauge g);
          totalDurationGauge := <[labels := totalDuration]> (totalDurationGauge g) |}.

(** doSmoketest (monitor.go lines 108-121); [keepObjects] and [timeout] are the
    package variables the flags set, [l] what the loading steps answer and
    [sched] what the watch of this run delivers. *)
Definition doSmoketest (l : Loading) (keepObjects : bool) (timeout : Z)
    (sched : list Event) (g : Gauges) : M W Gauges :=
  let launchDuration : Duration := 0 in
  start ← Now;
  let '(test, err, _) := NewSmoketest l in
  match err with
  | Some e =>
      now ← Now;
      let totalDuration := Sub now start in
      publishResult g launchDuration totalDuration (Some e)
  | None =>
      '(launchDuration, err) ← Run (smoketestOf test) keepObjects timeout sched;
      now ← Now;
      let totalDuration := Sub now start in
      publishResult g launchDuration totalDuration err
  end.

End Monitor.

(** * The vocabulary of the properties *)

(** ** Events and conditions *)

(** A condition that ends the watch: Ready or InstantiateFailure, true. *)
Definition terminal (cond : TemplateInstanceCondition) : bool :=
  condition_is TemplateInstanceReady cond ||
  condition_is TemplateInstanceInstantiateFailure cond.

(** An event that leaves the watcher waiting: a Modified event that carries
    an instance none of whose conditions is terminal. *)
Definition staysPending (event : Event) : bool :=
  String.eqb (EventType event) Modified &&
  match Object event with
  | ObjTemplateInstance (Some ti) => forallb (fun cond => negb (terminal cond)) (Conditions ti)
  | _ => false
  end.

(** The instance the variable ti points to after a run of such events. *)
Fixpoint lastInstance (ti : TemplateInstance) (events : list Event) : TemplateInstance :=
  match events with
  | [] => ti
  | event :: events' =>
      match Object event with
      | ObjTemplateInstance (Some ti') => lastInstance ti' events'
      | _ => lastInstance ti events'
      end
  end.

Section Clock.

Context {W : Type} `{Env : Environment W}.

(** The world after [n] readings of the clock. *)
Fixpoint afterReads (n : nat) (w : W) : W :=
  match n with
  | O => w
  | S n' => afterReads n' (time_Now w).2
  end.

End Clock.

(** ** Traces *)

(** The entries validation and the watch loop leave: reads of the produced
    objects and stops of the watcher. *)
Definition quiet (e : Entry) : bool :=
  match e with
  | CallWatcherStop _ | CallConfigMapsGet _ _ | CallJobsGet _ _ => true
  | _ => false
  end.

(** The entries of cleanup: a deferred call starting, a delete request. *)
Definition isCleanup (e : Entry) : bool :=
  match e with
  | RunDeferred _ | CallTemplatesDelete _ _ _ | CallSecretsDelete _ _ _
  | CallInstancesDelete _ _ _ => true
  | _ => false
  end.

(** The create calls of a trace. *)
Definition isCreate (e : Entry) : bool :=
  match e with
  | CallTemplatesCreate _ _ _ _ | CallSecretsCreate _ _ _ _
  | CallInstancesCreate _ _ _ _ => true
  | _ => false
  end.

Definition creates (tr : list Entry) : list Entry := List.filter isCreate tr.

(** What a launch that returned has created, and the references it
    returned for cleanup: nothing when the template could not be fetched;
    what the create call returned when the secret could not be created; the
    secret alone when the instance could not be created; else the secret and
    the instance, the latter as created or as the last Modified event
    carried it. *)
Inductive Launched (ns : string) (sched : list Event)
  : list Entry -> option TemplateInstance -> option Secret -> Prop :=
  | launched_nothing :
      Launched ns sched [] None None
  | launched_no_secret (req : Secret) (r : option Secret) (e : error) :
      Launched ns sched [CallSecretsCreate ns req r (Some e)] None r
  | launched_no_instance (req : Secret) (sec : Secret) (ireq : TemplateInstance)
      (r : option TemplateInstance) (e : error) :
      Launched ns sched
        [CallSecretsCreate ns req (Some sec) None; CallInstancesCreate ns ireq r (Some e)]
        None (Some sec)
  | launched_instance (req : Secret) (sec : Secret) (ireq i x : TemplateInstance) :
      (x = i \/
       exists event, In event sched /\ Object event = ObjTemplateInstance (Some x)) ->
      Launched ns sched
        [CallSecretsCreate ns req (Some sec) None;
         CallInstancesCreate ns ireq (Some i) None]
        (Some x) (Some sec).

(** What a run that returned has created, and the calls it deferred, last
    deferred first. *)
Inductive CleansUp (ns : string) (sched : list Event)
  : list Entry -> list Deferred -> Prop :=
  | cleans_template_only (req : Template) (r : option Template) (e : error) :
      CleansUp ns sched
        [CallTemplatesCreate ns req r (Some e)]
        [DeferDeleteTemplate ns r]
  | cleans_launch (req tpl : Template) (made : list Entry)
      (ti : option TemplateInstance) (sec : option Secret) :
      Launched ns sched made ti sec ->
      CleansUp ns sched
        (CallTemplatesCreate ns req (Some tpl) None :: made)
        [DeferDeleteTemplateInstance ns ti; DeferDeleteSecret ns sec;
         DeferDeleteTemplate ns (Some tpl)].

(** The delete request a deferred call sends: none on a nil reference. *)
Definition deleteCall (d : Deferred) : list Entry :=
  match d with
  | DeferDeleteTemplate ns (Some tpl) =>
      [CallTemplatesDelete ns (Name (TemplateMeta tpl)) {| PropagationPolicy := None |}]
  | DeferDeleteSecret ns (Some sec) =>
      [CallSecretsDelete ns (Name (SecretMeta sec)) {| PropagationPolicy := None |}]
  | DeferDeleteTemplateInstance ns (Some ti) =>
      [CallInstancesDelete ns (Name (InstanceMeta ti))
         {| PropagationPolicy := Some DeletePropagationForeground |}]
  | _ => []
  end.

(** The trace of running a stack of deferred calls. *)
Definition cleanupTrace (ds : list Deferred) : list Entry :=
  flat_map (fun d => RunDeferred d :: deleteCall d) ds.

(** ** Calls and errors of a run *)

(** The kind of a trace entry. *)
Inductive CallKind : Type :=
  | KCreateTemplate
  | KGetTemplate
  | KCreateSecret
  | KCreateInstance
  | KWatch
  | KStop
  | KGetConfigMap
  | KGetJob
  | KDelete
  | KDeferred.

Definition kindOf (e : Entry) : CallKind :=
  match e with
  | CallTemplatesCreate _ _ _ _ => KCreateTemplate
  | CallTemplatesGet _ _ => KGetTemplate
  | CallSecretsCreate _ _ _ _ => KCreateSecret
  | CallInstancesCreate _ _ _ _ => KCreateInstance
  | CallInstancesWatch _ _ => KWatch
  | CallWatcherStop _ => KStop
  | CallConfigMapsGet _ _ => KGetConfigMap
  | CallJobsGet _ _ => KGetJob
  | CallTemplatesDelete _ _ _ | CallSecretsDelete _ _ _ | CallInstancesDelete _ _ _ =>
      KDelete
  | RunDeferred _ => KDeferred
  end.

(** The calls of a whole run before its cleanup, in the order of the
    source. *)
Definition protocol : list CallKind :=
  [KCreateTemplate; KGetTemplate; KCreateSecret; KCreateInstance; KWatch; KStop;
   KGetConfigMap; KGetJob].

(** The calls validation can leave: none, the read of the config map, or
    that read and the read of the job. *)
Definition validationCalls (t : Smoketest) (params : gmap string string)
    (q : list Entry) : Prop :=
  q = [] \/
  q = [CallConfigMapsGet (namespace t) (configMapName params)] \/
  q = [CallConfigMapsGet (namespace t) (configMapName params);
       CallJobsGet (namespace t) (jobName params)].

(** The errors Run hands to its caller: none, or one of six of the
    package's values. *)
Definition classified (err : option error) : bool :=
  match err with
  | None
  | Some ErrCreateTemplate | Some ErrCreateInstance | Some ErrLaunchInstanceFailed
  | Some ErrLaunchInstanceTimeout | Some ErrInstanceInvalid | Some ErrUnknown => true
  | Some ErrInitTest | Some (APIError _) => false
  end.

(** The errors of validation, and so of a launch that ended on a terminal
    condition. *)
Definition afterStop (err : option error) : Prop :=
  err = None \/ err = Some ErrInstanceInvalid \/
  err = Some ErrLaunchInstanceFailed \/ err = Some ErrUnknown.

(** The two errors of a failed creation. *)
Definition creationError (err : option error) : Prop :=
  err = Some ErrCreateTemplate \/ err = Some ErrCreateInstance.

(** ** Loading steps and label series *)

(** What a loading step answers. *)
Definition answer (l : Loading) (step : InitStep) : option error :=
  match step with
  | LoadNamespace => (kubeconfig_Namespace l).2
  | LoadClientConfig => kubeconfig_ClientConfig l
  | NewTemplateClient => templatev1client_NewForConfig l
  | NewProjectClient => projectv1client_NewForConfig l
  | NewK8sClient => kubernetes_NewForConfig l
  end.

Definition allSteps : list InitStep :=
  [LoadNamespace; LoadClientConfig; NewTemplateClient; NewProjectClient; NewK8sClient].

(** The pairs of label values the monitor can publish under: success
    without a reason, and failure with one of the seven tags. *)
Definition labelSeries : list (string * string) :=
  ("success", "") ::
  ((fun e => ("failure", Error e)) <$>
     [ErrInitTest; ErrCreateTemplate; ErrCreateInstance; ErrLaunchInstanceFailed;
      ErrLaunchInstanceTimeout; ErrInstanceInvalid; ErrUnknown]).

Definition isStopCall (e : Entry) : bool :=
  match e with
  | CallWatcherStop _ => true
  | _ => false
  end.

(** * Fixtures on the in-memory environment *)

Module Fixtures.

Import InMemory.

Definition ns : string := "myproject".
Definition smoketest : Smoketest := mkSmoketest ns.

(** The clock at the start of the run, and the identifier Run derives
    from it. *)
Definition epoch : Time := 1525000000 * 1000000000.
Definition id : string := "1525000000".
Definition templateName : string := "smoketest-template-1525000000".

Definition params : gmap string string := getDummyTemplateParams smoketest id.

(** The objects a correct instantiation produces. *)
Definition producedConfigMap : ConfigMap :=
  {| ConfigMapMeta := {| Name := "test-configmap-1525000000"; Labels := None |};
     Data := Some (<["foo" := "bar"]> (<["simpleParam" := "test"]> ∅)) |}.

Definition bash : Container :=
  {| ContainerName := "bash"; Args := Some ["echo"; "Hello world"] |}.

Definition producedJob (containers : list Container) : Job :=
  {| JobMeta := {| Name := "test-job-1525000000"; Labels := None |};
     Containers := containers |}.

(** A cluster that holds the produced objects, the job with the given
    containers. *)
Definition clusterWith (containers : list Container) : Cluster :=
  {| templates := ∅; secrets := ∅; instances := ∅;
     configMaps := <[(ns, "test-configmap-1525000000") := producedConfigMap]> ∅;
     jobs := <[(ns, "test-job-1525000000") := producedJob containers]> ∅;
     clock := epoch; opened := 0; stopped := []; refuseWatch := false |}.

Definition healthy : Cluster := clusterWith [bash].

(** The same cluster once Run has created its template. *)
Definition withTemplate (c : Cluster) : Cluster :=
  withTemplates (<[(ns, templateName) := testTemplate id]> (templates c)) c.


Definition ready : TemplateInstanceCondition :=
  {| CondType := "Ready"; CondStatus := "True" |}.

Definition failed : TemplateInstanceCondition :=
  {| CondType := "InstantiateFailure"; CondStatus := "True" |}.

Definition instanceWith (conds : list TemplateInstanceCondition) : TemplateInstance :=
  {| InstanceMeta := {| Name := "smoketest-template-1525000000-instance"; Labels := None |};
     SpecTemplate := testTemplate id;
     SpecSecret := Some "smoketest-template-1525000000-secret";
     Conditions := conds |}.

Definition modified (conds : list TemplateInstanceCondition) : Event :=
  {| EventType := "MODIFIED"; Object := ObjTemplateInstance (Some (instanceWith conds)) |}.

Definition deleted : Event := {| EventType := "DELETED"; Object := ObjOther |}.

Definition initial (c : Cluster) : State Cluster := mkState c [].

(** A cluster in which an instance of the name the launch asks for is
    already there, so that its creation fails after that of the secret. *)
Definition occupied : Cluster :=
  withInstances (<[(ns, "smoketest-template-1525000000-instance") := instanceWith []]> ∅)
                healthy.

(** Whether an entry is a call validation makes. *)
Definition isValidation (e : Entry) : bool :=
  match e with
  | CallConfigMapsGet _ _ | CallJobsGet _ _ => true
  | _ => false
  end.

Definition isStop (e : Entry) : bool :=
  match e with
  | CallWatcherStop _ => true
  | _ => false
  end.

Definition launchCluster : Cluster := withTemplate healthy.
Definition fetched : Cluster := (Templates_Get ns templateName launchCluster).2.
Definition secret : Secret := paramSecret templateName params.
Definition secretMade : Cluster := (Secrets_Create ns secret fetched).2.
Definition launchStart : Time := (time_Now secretMade).1.
Definition started : Cluster := (time_Now secretMade).2.
Definition request : TemplateInstance := instanceRequest templateName (testTemplate id) secret.
Definition instanceMade : Cluster := (TemplateInstances_Create ns request started).2.
Definition watching : Cluster :=
  (TemplateInstances_Watch ns (InstanceMeta request) instanceMade).2.

(** Loading steps that all succeed, in the namespace of the fixtures, and
    loading steps of which the second fails. *)
Definition loaded : Loading :=
  {| kubeconfig_Namespace := (ns, None);
     kubeconfig_ClientConfig := None;
     templatev1client_NewForConfig := None;
     projectv1client_NewForConfig := None;
     kubernetes_NewForConfig := None |}.

Definition unloaded : Loading :=
  {| kubeconfig_Namespace := (ns, None);
     kubeconfig_ClientConfig := Some (APIError "no configuration has been provided");
     templatev1client_NewForConfig := None;
     projectv1client_NewForConfig := None;
     kubernetes_NewForConfig := None |}.

Definition noGauges : Gauges :=
  {| templateTestGauge := ∅; templateLaunchGauge := ∅; totalDurationGauge := ∅ |}.

(** The gauges a smoketest of the monitor leaves, when it returns. *)
Definition gaugesOf (r : outcome Gauges * State Cluster) : Gauges :=
  match r.1 with
  | Returned g => g
  | Panicked _ => noGauges
  end.

End Fixtures.

(** * Properties *)

(** ** Reading the monad *)

Ltac unfold_monad :=
  unfold mbind, M_bind, mret, M_ret, Frame_bind, Frame_ret, lift, defer,
    call, exec, deref, raise, Now in *.

(** Case analysis on a result the goal scrutinises, innermost first. *)
Ltac split_result :=
  match goal with
  | |- context [match ?x with _ => _ end] =>
      lazymatch x with
      | context [match _ with _ => _ end] => fail
      | _ => destruct x eqn:?
      end
  end.

(** Closing the cases of a classification: open the hypotheses, compare
    the results. *)
Ltac settle :=
  repeat split; intros;
  repeat match goal with
         | H : exists _, _ |- _ => destruct H
         | H : _ /\ _ |- _ => destruct H
         end;
  cbn in *; simplify_eq; try congruence; try done; eauto 10.

Lemma DeepEqual_true {A : Type} `{EqDecision A} (x y : A) :
  DeepEqual x y = true -> x = y.
Proof. unfold DeepEqual. apply bool_decide_eq_true. Qed.

Lemma DeepEqual_false {A : Type} `{EqDecision A} (x y : A) :
  DeepEqual x y = false -> x <> y.
Proof. unfold DeepEqual. apply bool_decide_eq_false. Qed.

Lemma DeepEqual_refl {A : Type} `{EqDecision A} (x : A) : DeepEqual x x = true.
Proof. unfold DeepEqual. apply bool_decide_eq_true. reflexivity. Qed.

(** The seven error values carry seven different tags. *)
Lemma error_tags_differ :
  NoDup (Error <$> [ErrInitTest; ErrCreateTemplate; ErrCreateInstance;
                    ErrLaunchInstanceFailed; ErrLaunchInstanceTimeout;
                    ErrInstanceInvalid; ErrUnknown]).
Proof.
  cbn.
  repeat (apply NoDup_cons; split;
          [rewrite ?elem_of_cons, elem_of_nil; intuition discriminate|]).
  apply NoDup_nil. exact I.
Qed.

Section Properties.

Context {W : Type} `{Env : Environment W}.

(** ** The delete functions *)

(** C9 (as amended): on a nil reference each delete function does nothing
    and returns no error; on any other reference it sends exactly one delete
    request for the reference's name and returns the error of that request,
    whatever it is.  Nothing in the function tells an already deleted
    resource from a present one. *)
Theorem delete_nil_noop_else_forwards (t : Smoketest) (ns : string) (s : State W) :
  deleteTemplate t ns None s = (Returned None, s) /\
  deleteSecret t ns None s = (Returned None, s) /\
  deleteTemplateInstance t ns None s = (Returned None, s) /\
  (forall tpl : Template,
     let name := Name (TemplateMeta tpl) in
     let opts := {| PropagationPolicy := None |} in
     let r := Templates_Delete ns name opts (world s) in
     deleteTemplate t ns (Some tpl) s =
       (Returned r.1, mkState r.2 (trace s ++ [CallTemplatesDelete ns name opts]))) /\
  (forall sec : Secret,
     let name := Name (SecretMeta sec) in
     let opts := {| PropagationPolicy := None |} in
     let r := Secrets_Delete ns name opts (world s) in
     deleteSecret t ns (Some sec) s =
       (Returned r.1, mkState r.2 (trace s ++ [CallSecretsDelete ns name opts]))) /\
  (forall ti : TemplateInstance,
     let name := Name (InstanceMeta ti) in
     let opts := {| PropagationPolicy := Some DeletePropagationForeground |} in
     let r := TemplateInstances_Delete ns name opts (world s) in
     deleteTemplateInstance t ns (Some ti) s =
       (Returned r.1, mkState r.2 (trace s ++ [CallInstancesDelete ns name opts]))).
Proof.
  repeat split; intros; cbn; unfold_monad; cbn;
    destruct r as [[e|] w] eqn:Hr; subst r; subst name opts; cbn in *;
    rewrite Hr; reflexivity.
Qed.

(** ** Validation *)

(** C5: validation returns no error exactly when the labels of the instance
    equal those of the template, the config map test-configmap-ID is there
    with exactly the data foo=bar and simpleParam=SIMPLE_PARAM, and the job
    test-job-ID is there with the arguments of its first container equal, in
    order, to the decoded JSON_PARAM.  Each check is made only when the ones
    before it passed: a mismatch of labels, of the data or of the arguments
    returns ErrInstanceInvalid, a config map or job that cannot be fetched
    ErrLaunchInstanceFailed.  Equality is reflect.DeepEqual: a nil map or
    slice equals only nil. *)
Theorem validate_ok_iff (t : Smoketest) (instance : TemplateInstance)
    (template : Template) (params : gmap string string) (s : State W) :
  let labelsEqual := Labels (InstanceMeta instance) = Labels (TemplateMeta template) in
  let cmGet := ConfigMaps_Get (namespace t) (configMapName params) (world s) in
  let decoded := json_Unmarshal (bytes_of (index params "JSON_PARAM")) (Some []) in
  let jobGet := Jobs_Get (namespace t) (jobName params) cmGet.2 in
  let dataAsExpected :=
    exists cm, cmGet.1 = (Some cm, None) /\ Data cm = expectedData params in
  let result := (validateTemplateInstance t instance template params s).1 in
  (result = Returned None <->
     labelsEqual /\ dataAsExpected /\
     exists job c rest,
       jobGet.1 = (Some job, None) /\ Containers job = c :: rest /\
       decoded.2 = None /\ Args c = decoded.1) /\
  (~ labelsEqual -> result = Returned (Some ErrInstanceInvalid)) /\
  (labelsEqual -> (exists r e, cmGet.1 = (r, Some e)) ->
     result = Returned (Some ErrLaunchInstanceFailed)) /\
  (labelsEqual ->
     (exists cm, cmGet.1 = (Some cm, None) /\ Data cm <> expectedData params) ->
     result = Returned (Some ErrInstanceInvalid)) /\
  (labelsEqual -> dataAsExpected -> decoded.2 = None ->
     (exists r e, jobGet.1 = (r, Some e)) ->
     result = Returned (Some ErrLaunchInstanceFailed)) /\
  (labelsEqual -> dataAsExpected -> decoded.2 = None ->
     (exists job c rest,
        jobGet.1 = (Some job, None) /\ Containers job = c :: rest /\
        Args c <> decoded.1) ->
     result = Returned (Some ErrInstanceInvalid)).
Proof.
  cbv zeta.
  unfold validateTemplateInstance. unfold_monad. cbn.
  destruct (DeepEqual (Labels (TemplateMeta template)) (Labels (InstanceMeta instance)))
    eqn:Hlab; cbn;
    [apply DeepEqual_true in Hlab | apply DeepEqual_false in Hlab].
  2:{ settle. }
  destruct (ConfigMaps_Get (namespace t) (configMapName params) (world s))
    as [[[cm|] [e|]] w1] eqn:Hcm; cbn;
    try solve [settle].
  destruct (DeepEqual (expectedData params) (Data cm)) eqn:Hdata; cbn;
    [apply DeepEqual_true in Hdata | apply DeepEqual_false in Hdata];
    [| settle].
  destruct (json_Unmarshal (bytes_of (index params "JSON_PARAM")) (Some []))
    as [args [e'|]] eqn:Hjson; cbn;
    [settle |].
  destruct (Jobs_Get (namespace t) (jobName params) w1)
    as [[[job|] [e'|]] w2] eqn:Hjob; cbn;
    try solve [settle].
  destruct (Containers job) as [|c rest] eqn:Hcs; cbn;
    [settle |].
  destruct (DeepEqual args (Args c)) eqn:Hargs; cbn;
    [apply DeepEqual_true in Hargs | apply DeepEqual_false in Hargs];
    settle.
Qed.

(** C10: validation reads Containers[0] of the fetched job without looking
    at the length of the list: when every earlier check passes and the job
    has no container, validation panics with an index out of range and
    returns none of the error values. *)
Theorem validate_panics_on_empty_containers (t : Smoketest) (instance : TemplateInstance)
    (template : Template) (params : gmap string string) (s : State W)
    (cm : ConfigMap) (w1 : W) (args : option (list string)) (job : Job) (w2 : W) :
  Labels (InstanceMeta instance) = Labels (TemplateMeta template) ->
  ConfigMaps_Get (namespace t) (configMapName params) (world s) = ((Some cm, None), w1) ->
  Data cm = expectedData params ->
  json_Unmarshal (bytes_of (index params "JSON_PARAM")) (Some []) = (args, None) ->
  Jobs_Get (namespace t) (jobName params) w1 = ((Some job, None), w2) ->
  Containers job = [] ->
  (validateTemplateInstance t instance template params s).1 = Panicked IndexOutOfRange.
Proof.
  intros Hlab Hcm Hdata Hjson Hjob Hcs.
  unfold validateTemplateInstance. unfold_monad. cbn.
  rewrite Hlab, DeepEqual_refl. cbn.
  rewrite Hcm. cbn. rewrite Hdata, DeepEqual_refl. cbn.
  rewrite Hjson. cbn. rewrite Hjob. cbn. rewrite Hcs. reflexivity.
Qed.

(** ** The watch loop *)

Lemma conditionsLoop_no_terminal (t : Smoketest) (watcher : Watcher)
    (ti : TemplateInstance) (template : Template) (params : gmap string string)
    (secretResult : option Secret) (duration : Duration)
    (conds : list TemplateInstanceCondition) (s : State W) :
  forallb (fun cond => negb (terminal cond)) conds = true ->
  conditionsLoop t watcher ti template params secretResult duration conds s
  = (Returned None, s).
Proof.
  induction conds as [|cond conds IH]; intros Hall; [reflexivity|].
  cbn in Hall. apply andb_true_iff in Hall as [Hc Hall].
  apply negb_true_iff in Hc. unfold terminal in Hc.
  apply orb_false_iff in Hc as [Hready Hfail].
  cbn. rewrite Hready, Hfail. apply IH, Hall.
Qed.

(** The first terminal condition of the list decides: a loop over
    [pre ++ cond :: post], with nothing terminal in [pre], does what it does
    on [cond]. *)
Lemma conditionsLoop_first_terminal (t : Smoketest) (watcher : Watcher)
    (ti : TemplateInstance) (template : Template) (params : gmap string string)
    (secretResult : option Secret) (duration : Duration)
    (pre post : list TemplateInstanceCondition) (cond : TemplateInstanceCondition)
    (s : State W) :
  forallb (fun c => negb (terminal c)) pre = true ->
  conditionsLoop t watcher ti template params secretResult duration
    (pre ++ cond :: post) s
  = conditionsLoop t watcher ti template params secretResult duration [cond] s
    \/ terminal cond = false.
Proof.
  intros Hpre. destruct (terminal cond) eqn:Hc; [left | right; reflexivity].
  induction pre as [|c pre IH].
  - cbn. unfold terminal in Hc.
    destruct (condition_is TemplateInstanceReady cond); [reflexivity|].
    cbn in Hc. rewrite Hc. reflexivity.
  - cbn in Hpre. apply andb_true_iff in Hpre as [Hc0 Hpre].
    apply negb_true_iff in Hc0. unfold terminal in Hc0.
    apply orb_false_iff in Hc0 as [Hready Hfail].
    cbn [app conditionsLoop]. rewrite Hready, Hfail. apply IH, Hpre.
Qed.

(** A run of events that leave the watcher waiting only reads the clock,
    once per event, and moves ti to the last instance delivered. *)
Lemma watchLoop_pending_prefix (t : Smoketest) (watcher : Watcher) (template : Template)
    (params : gmap string string) (secretResult : option Secret) (launchStart : Time)
    (pre rest : list Event) :
  forallb staysPending pre = true ->
  forall (ti : TemplateInstance) (s : State W),
    watchLoop t watcher template params secretResult launchStart ti (pre ++ rest) s
    = watchLoop t watcher template params secretResult launchStart
        (lastInstance ti pre) rest
        (mkState (afterReads (length pre) (world s)) (trace s)).
Proof.
  induction pre as [|event pre IH]; intros Hall ti s.
  - destruct s. reflexivity.
  - cbn in Hall. apply andb_true_iff in Hall as [Hev Hall].
    unfold staysPending in Hev. apply andb_true_iff in Hev as [Hty Hobj].
    destruct (Object event) as [[ti'|]|] eqn:Hpayload; try discriminate.
    cbn [app watchLoop lastInstance length afterReads].
    rewrite Hty, Hpayload. unfold_monad. cbn.
    destruct (time_Now (world s)) as [now w] eqn:Hnow. cbn.
    rewrite conditionsLoop_no_terminal by exact Hobj.
    rewrite IH by exact Hall. reflexivity.
Qed.

(** The timeout case, in any environment: after events that leave the
    watcher waiting the loop returns with the world as the readings of the
    clock left it and the trace as it was.  The watcher is never stopped on
    this path. *)
Lemma timeout_case_stops_nothing (t : Smoketest) (watcher : Watcher) (template : Template)
    (params : gmap string string) (secretResult : option Secret) (launchStart : Time)
    (ti : TemplateInstance) (sched : list Event) (s : State W) :
  forallb staysPending sched = true ->
  let now := time_Now (afterReads (length sched) (world s)) in
  watchLoop t watcher template params secretResult launchStart ti sched s
  = (Returned (Some (lastInstance ti sched), secretResult, Sub now.1 launchStart,
               Some ErrLaunchInstanceTimeout),
     mkState now.2 (trace s)).
Proof.
  intros Hpending now. subst now.
  rewrite <- (app_nil_r sched) at 1.
  rewrite watchLoop_pending_prefix by exact Hpending.
  cbn. unfold_monad. cbn.
  destruct (time_Now (afterReads (length sched) (world s))) as [now w].
  reflexivity.
Qed.

(** One Modified event whose instance has a first terminal condition. *)
Lemma watchLoop_terminal_event (t : Smoketest) (watcher : Watcher) (template : Template)
    (params : gmap string string) (secretResult : option Secret) (launchStart : Time)
    (ti ti' : TemplateInstance) (event : Event) (rest : list Event)
    (pre post : list TemplateInstanceCondition) (cond : TemplateInstanceCondition)
    (s : State W) :
  EventType event = Modified ->
  Object event = ObjTemplateInstance (Some ti') ->
  Conditions ti' = pre ++ cond :: post ->
  forallb (fun c => negb (terminal c)) pre = true ->
  terminal cond = true ->
  watchLoop t watcher template params secretResult launchStart ti (event :: rest) s
  = let now := time_Now (world s) in
    match conditionsLoop t watcher ti' template params secretResult
            (Sub now.1 launchStart) [cond] (mkState now.2 (trace s)) with
    | (Returned (Some res), s') => (Returned res, s')
    | (Returned None, s') =>
        watchLoop t watcher template params secretResult launchStart ti' rest s'
    | (Panicked p, s') => (Panicked p, s')
    end.
Proof.
  intros Hty Hobj Hconds Hpre Hterm.
  cbn [watchLoop]. rewrite Hty, Hobj. unfold_monad. cbn -[conditionsLoop].
  destruct (time_Now (world s)) as [now w] eqn:Hnow. cbn -[conditionsLoop].
  rewrite Hconds.
  destruct (conditionsLoop_first_terminal t watcher ti' template params secretResult
              (Sub now launchStart) pre post cond (mkState w (trace s)) Hpre)
    as [-> | Hno]; [| congruence].
  destruct (conditionsLoop t watcher ti' template params secretResult
              (Sub now launchStart) [cond] (mkState w (trace s)))
    as [[[res|]|p] s']; reflexivity.
Qed.

(** ** Launch *)

(** When the template is fetched, the secret and the instance are created
    and the watch is opened, launchTemplateInstanceCheck is its watch loop,
    started at the time read between the two creations. *)
Lemma launch_reaches_loop (t : Smoketest) (ns templateName id : string) (timeout : Z)
    (sched : list Event) (s : State W)
    (tpl : Template) (w1 : W) (sec : Secret) (w2 : W) (start : Time) (w3 : W)
    (ti : TemplateInstance) (w4 : W) (watcher : Watcher) (w5 : W) :
  let params := getDummyTemplateParams t id in
  let secret := paramSecret templateName params in
  let request := instanceRequest templateName tpl secret in
  Templates_Get ns templateName (world s) = ((Some tpl, None), w1) ->
  Secrets_Create ns secret w1 = ((Some sec, None), w2) ->
  time_Now w2 = (start, w3) ->
  TemplateInstances_Create ns request w3 = ((Some ti, None), w4) ->
  TemplateInstances_Watch ns (InstanceMeta ti) w4 = ((Some watcher, None), w5) ->
  launchTemplateInstanceCheck t ns templateName id timeout sched s
  = watchLoop t watcher tpl params (Some sec) start ti sched
      (mkState w5
         (trace s ++ [CallTemplatesGet ns templateName]
                  ++ [CallSecretsCreate ns secret (Some sec) None]
                  ++ [CallInstancesCreate ns request (Some ti) None]
                  ++ [CallInstancesWatch ns (InstanceMeta ti)])).
Proof.
  intros params secret request Hget Hsec Hnow Hcreate Hwatch.
  unfold launchTemplateInstanceCheck. unfold_monad. cbn.
  rewrite Hget. cbn. fold params. fold secret. rewrite Hsec. cbn.
  rewrite Hnow. cbn. fold request. rewrite Hcreate. cbn. rewrite Hwatch. cbn.
  rewrite <- !app_assoc. reflexivity.
Qed.

(** C4: when every event delivered before the timer fires leaves the
    watcher waiting, the launch returns ErrLaunchInstanceTimeout and no
    other error, with the time from the launch start (read between the
    creation of the secret and that of the instance) to the reading made
    when the timeout case runs. *)
Theorem timeout_returns_elapsed_time (t : Smoketest) (ns templateName id : string)
    (timeout : Z) (sched : list Event) (s : State W)
    (tpl : Template) (w1 : W) (sec : Secret) (w2 : W) (start : Time) (w3 : W)
    (ti : TemplateInstance) (w4 : W) (watcher : Watcher) (w5 : W) :
  let params := getDummyTemplateParams t id in
  let secret := paramSecret templateName params in
  let request := instanceRequest templateName tpl secret in
  Templates_Get ns templateName (world s) = ((Some tpl, None), w1) ->
  Secrets_Create ns secret w1 = ((Some sec, None), w2) ->
  time_Now w2 = (start, w3) ->
  TemplateInstances_Create ns request w3 = ((Some ti, None), w4) ->
  TemplateInstances_Watch ns (InstanceMeta ti) w4 = ((Some watcher, None), w5) ->
  forallb staysPending sched = true ->
  (launchTemplateInstanceCheck t ns templateName id timeout sched s).1
  = Returned (Some (lastInstance ti sched), Some sec,
              Sub (time_Now (afterReads (length sched) w5)).1 start,
              Some ErrLaunchInstanceTimeout).
Proof.
  intros params secret request Hget Hsec Hnow Hcreate Hwatch Hpending.
  rewrite (launch_reaches_loop t ns templateName id timeout sched s
             tpl w1 sec w2 start w3 ti w4 watcher w5 Hget Hsec Hnow Hcreate Hwatch).
  rewrite timeout_case_stops_nothing by exact Hpending.
  reflexivity.
Qed.

Lemma failure_is_not_ready (cond : TemplateInstanceCondition) :
  condition_is TemplateInstanceInstantiateFailure cond = true ->
  condition_is TemplateInstanceReady cond = false.
Proof.
  unfold condition_is. intros Hfail.
  apply andb_true_iff in Hfail as [Hty _]. apply String.eqb_eq in Hty.
  rewrite Hty. reflexivity.
Qed.

(** What the watch loop does on a Modified event, by the first terminal
    condition of its instance. *)
Lemma watchLoop_first_terminal (t : Smoketest) (watcher : Watcher)
    (template : Template) (params : gmap string string) (secretResult : option Secret)
    (launchStart : Time) (ti ti' : TemplateInstance) (event : Event) (rest : list Event)
    (pre post : list TemplateInstanceCondition) (cond : TemplateInstanceCondition)
    (s : State W) :
  EventType event = Modified ->
  Object event = ObjTemplateInstance (Some ti') ->
  Conditions ti' = pre ++ cond :: post ->
  forallb (fun c => negb (terminal c)) pre = true ->
  let now := time_Now (world s) in
  let stopped :=
    mkState (Watcher_Stop watcher now.2) (trace s ++ [CallWatcherStop watcher]) in
  let validated := validateTemplateInstance t ti' template params stopped in
  let run := watchLoop t watcher template params secretResult launchStart ti
               (event :: rest) s in
  (condition_is TemplateInstanceReady cond = true ->
     run = (match validated.1 with
            | Returned err => Returned (Some ti', secretResult, Sub now.1 launchStart, err)
            | Panicked p => Panicked p
            end, validated.2)) /\
  (condition_is TemplateInstanceInstantiateFailure cond = true ->
     run = (Returned (Some ti', secretResult, Sub now.1 launchStart,
                      Some ErrLaunchInstanceFailed), stopped)).
Proof.
  intros Hty Hobj Hconds Hpre now stopped validated run.
  subst run validated stopped now. split; intros Hcond.
  - rewrite (watchLoop_terminal_event t watcher template params secretResult launchStart
               ti ti' event rest pre post cond s Hty Hobj Hconds Hpre)
      by (unfold terminal; rewrite Hcond; reflexivity).
    cbn. rewrite Hcond. unfold_monad. cbn.
    destruct (validateTemplateInstance t ti' template params _) as [[err|p] s'];
      reflexivity.
  - rewrite (watchLoop_terminal_event t watcher template params secretResult launchStart
               ti ti' event rest pre post cond s Hty Hobj Hconds Hpre)
      by (unfold terminal; rewrite Hcond; apply orb_true_r).
    cbn. rewrite (failure_is_not_ready cond Hcond), Hcond. reflexivity.
Qed.

(** C1 (as amended): on a Modified event the first terminal condition in
    the order of the list decides.  When it is Ready=true the watcher is
    stopped, validation runs and its error is returned; when it is
    InstantiateFailure=true the watcher is stopped and
    ErrLaunchInstanceFailed is returned without validation.  What stands
    after that condition in the list, the other terminal condition
    included, is never read. *)
Theorem first_terminal_condition_decides (t : Smoketest) (watcher : Watcher)
    (template : Template) (params : gmap string string) (secretResult : option Secret)
    (launchStart : Time) (ti ti' : TemplateInstance) (event : Event) (rest : list Event)
    (pre post : list TemplateInstanceCondition) (cond : TemplateInstanceCondition)
    (s : State W) :
  EventType event = Modified ->
  Object event = ObjTemplateInstance (Some ti') ->
  Conditions ti' = pre ++ cond :: post ->
  forallb (fun c => negb (terminal c)) pre = true ->
  let now := time_Now (world s) in
  let stopped :=
    mkState (Watcher_Stop watcher now.2) (trace s ++ [CallWatcherStop watcher]) in
  let validated := validateTemplateInstance t ti' template params stopped in
  let run := watchLoop t watcher template params secretResult launchStart ti
               (event :: rest) s in
  (condition_is TemplateInstanceReady cond = true ->
     run = (match validated.1 with
            | Returned err => Returned (Some ti', secretResult, Sub now.1 launchStart, err)
            | Panicked p => Panicked p
            end, validated.2)) /\
  (condition_is TemplateInstanceInstantiateFailure cond = true ->
     run = (Returned (Some ti', secretResult, Sub now.1 launchStart,
                      Some ErrLaunchInstanceFailed), stopped)).
Proof.
  exact (watchLoop_first_terminal t watcher template params secretResult
           launchStart ti ti' event rest pre post cond s).
Qed.


(** C6: the failures of the launch before the watch.  (1) When the template
    cannot be fetched the launch returns ErrCreateTemplate, with no secret
    and no instance.  (2) When the secret cannot be created it returns
    ErrCreateInstance together with whatever reference the create call
    returned.  (3) When the instance cannot be created it returns
    ErrCreateInstance together with the secret that was created. *)
Theorem launch_failures (t : Smoketest) (ns templateName id : string) (timeout : Z)
    (sched : list Event) (s : State W) :
  let params := getDummyTemplateParams t id in
  let secret := paramSecret templateName params in
  let launched := (launchTemplateInstanceCheck t ns templateName id timeout sched s).1 in
  (forall (r : option Template) (e : error) (w1 : W),
     Templates_Get ns templateName (world s) = ((r, Some e), w1) ->
     launched = Returned (None, None, 0, Some ErrCreateTemplate)) /\
  (forall (tpl : Template) (w1 : W) (r : option Secret) (e : error) (w2 : W),
     Templates_Get ns templateName (world s) = ((Some tpl, None), w1) ->
     Secrets_Create ns secret w1 = ((r, Some e), w2) ->
     launched = Returned (None, r, 0, Some ErrCreateInstance)) /\
  (forall (tpl : Template) (w1 : W) (sec : Secret) (w2 : W) (start : Time) (w3 : W)
          (r : option TemplateInstance) (e : error) (w4 : W),
     Templates_Get ns templateName (world s) = ((Some tpl, None), w1) ->
     Secrets_Create ns secret w1 = ((Some sec, None), w2) ->
     time_Now w2 = (start, w3) ->
     TemplateInstances_Create ns (instanceRequest templateName tpl secret) w3
       = ((r, Some e), w4) ->
     launched = Returned (None, Some sec, 0, Some ErrCreateInstance)).
Proof.
  intros params secret launched. subst launched.
  unfold launchTemplateInstanceCheck. unfold_monad. cbn. fold params.
  split; [| split].
  - intros r e w1 Hget. rewrite Hget. reflexivity.
  - intros tpl w1 r e w2 Hget Hsec. rewrite Hget. cbn. fold secret.
    rewrite Hsec. reflexivity.
  - intros tpl w1 sec w2 start w3 r e w4 Hget Hsec Hnow Hcreate.
    rewrite Hget. cbn. fold secret. rewrite Hsec. cbn. rewrite Hnow. cbn.
    rewrite Hcreate. reflexivity.
Qed.

(** ** Traces *)

Ltac grow_trace :=
  first
    [ exists []; split; [symmetry; apply app_nil_r | reflexivity]
    | eexists; split; [rewrite <- ?app_assoc; reflexivity | reflexivity] ].

Lemma validate_trace (t : Smoketest) (instance : TemplateInstance) (template : Template)
    (params : gmap string string) (s : State W) :
  exists q, trace (validateTemplateInstance t instance template params s).2 = trace s ++ q
            /\ forallb quiet q = true.
Proof.
  unfold validateTemplateInstance. unfold_monad. cbn.
  repeat (split_result; cbn); grow_trace.
Qed.

Lemma conditionsLoop_trace (t : Smoketest) (watcher : Watcher) (ti : TemplateInstance)
    (template : Template) (params : gmap string string) (secretResult : option Secret)
    (duration : Duration) (conds : list TemplateInstanceCondition) (s : State W) :
  exists q,
    trace (conditionsLoop t watcher ti template params secretResult duration conds s).2
    = trace s ++ q /\ forallb quiet q = true.
Proof.
  induction conds as [|cond conds IH]; cbn.
  - grow_trace.
  - destruct (condition_is TemplateInstanceReady cond).
    + unfold_monad. cbn.
      destruct (validate_trace t ti template params
                  (mkState (Watcher_Stop watcher (world s))
                           (trace s ++ [CallWatcherStop watcher]))) as (q & Hq & Hquiet).
      destruct (validateTemplateInstance t ti template params _) as [[err|p] s'];
        cbn in *; exists (CallWatcherStop watcher :: q);
        (split; [rewrite Hq, <- app_assoc; reflexivity | exact Hquiet]).
    + destruct (condition_is TemplateInstanceInstantiateFailure cond).
      * unfold_monad. cbn. grow_trace.
      * exact IH.
Qed.

Lemma conditionsLoop_result (t : Smoketest) (watcher : Watcher) (ti : TemplateInstance)
    (template : Template) (params : gmap string string) (secretResult : option Secret)
    (duration : Duration) (conds : list TemplateInstanceCondition) (s s' : State W)
    (res : LaunchResult) :
  conditionsLoop t watcher ti template params secretResult duration conds s
  = (Returned (Some res), s') ->
  exists err, res = (Some ti, secretResult, duration, err).
Proof.
  induction conds as [|cond conds IH]; cbn; [discriminate|].
  destruct (condition_is TemplateInstanceReady cond).
  - unfold_monad. cbn.
    destruct (validateTemplateInstance t ti template params _) as [[err|p] s1];
      intros Heq; inversion Heq; eauto.
  - destruct (condition_is TemplateInstanceInstantiateFailure cond); [|exact IH].
    unfold_monad. cbn. intros Heq. inversion Heq. eauto.
Qed.

(** The instance a watch loop returns is the one it started with or one an
    event of [sched] carried; the secret is the one it was given; and the
    loop leaves only quiet entries in the trace. *)
Lemma watchLoop_result (t : Smoketest) (watcher : Watcher) (template : Template)
    (params : gmap string string) (secretResult : option Secret) (launchStart : Time)
    (sched : list Event) :
  forall (ti : TemplateInstance) (s : State W),
    let run := watchLoop t watcher template params secretResult launchStart ti sched s in
    (exists q, trace run.2 = trace s ++ q /\ forallb quiet q = true) /\
    (forall r sec d err,
       run.1 = Returned (r, sec, d, err) ->
       sec = secretResult /\
       exists x, r = Some x /\
         (x = ti \/ exists event, In event sched /\
                                  Object event = ObjTemplateInstance (Some x))).
Proof.
  induction sched as [|event sched IH]; intros ti s; cbn zeta.
  - cbn. unfold_monad. destruct (time_Now (world s)) as [now w]. cbn. split.
    + grow_trace.
    + intros r sec d err Heq. inversion Heq. eauto.
  - cbn [watchLoop]. destruct (String.eqb (EventType event) Modified).
    2:{ unfold_monad. destruct (time_Now (world s)) as [now w]. cbn. split.
        - grow_trace.
        - intros r sec d err Heq. inversion Heq. eauto. }
    unfold_monad. destruct (time_Now (world s)) as [now w]. cbn -[conditionsLoop].
    destruct (Object event) as [[ti'|]|] eqn:Hobj; cbn -[conditionsLoop];
      try (split; [grow_trace | discriminate]).
    destruct (conditionsLoop_trace t watcher ti' template params secretResult
                (Sub now launchStart) (Conditions ti') (mkState w (trace s)))
      as (q & Hq & Hquiet).
    pose proof (conditionsLoop_result t watcher ti' template params secretResult
                  (Sub now launchStart) (Conditions ti') (mkState w (trace s))) as Hres.
    destruct (conditionsLoop t watcher ti' template params secretResult
                (Sub now launchStart) (Conditions ti') (mkState w (trace s)))
      as [[[res|]|p] s1]; cbn in Hq |- *.
    + split; [eauto|].
      intros r sec d err Heq. inversion Heq; subst res.
      destruct (Hres s1 _ eq_refl) as [err' Herr]. inversion Herr; subst.
      split; [reflexivity|]. exists ti'. split; [reflexivity|].
      right. exists event. split; [left; reflexivity | exact Hobj].
    + destruct (IH ti' s1) as [(q' & Hq' & Hquiet') Hret]. split.
      * exists (q ++ q'). rewrite Hq', Hq, app_assoc. split; [reflexivity|].
        rewrite forallb_app, Hquiet, Hquiet'. reflexivity.
      * intros r sec d err Heq. destruct (Hret r sec d err Heq) as (-> & x & -> & Hx).
        split; [reflexivity|]. exists x. split; [reflexivity|]. right.
        destruct Hx as [-> | (ev & Hin & Hev)].
        -- exists event. split; [left; reflexivity | exact Hobj].
        -- exists ev. split; [right; exact Hin | exact Hev].
    + split; [eauto | discriminate].
Qed.

Lemma quiet_not_cleanup (q : list Entry) :
  forallb quiet q = true ->
  forallb (fun e => negb (isCleanup e)) q = true /\ creates q = [].
Proof.
  induction q as [|e q IH]; cbn; [auto|].
  intros Hq. apply andb_true_iff in Hq as [He Hq]. destruct (IH Hq) as [IH1 IH2].
  destruct e; try discriminate; cbn; auto.
Qed.

(** A launch that returns leaves no cleanup entry in the trace, and what it
    created and returned is one of the cases of [Launched]. *)
Lemma launch_creates (t : Smoketest) (ns templateName id : string) (timeout : Z)
    (sched : list Event) (s s' : State W) (ti : option TemplateInstance)
    (sec : option Secret) (d : Duration) (err : option error) :
  launchTemplateInstanceCheck t ns templateName id timeout sched s
  = (Returned (ti, sec, d, err), s') ->
  exists rest,
    trace s' = trace s ++ rest /\
    forallb (fun e => negb (isCleanup e)) rest = true /\
    Launched ns sched (creates rest) ti sec.
Proof.
  unfold launchTemplateInstanceCheck. unfold_monad. cbn.
  destruct (Templates_Get ns templateName (world s)) as [[tplr [e|]] w1]; cbn.
  { intros Heq. inversion Heq. eexists. split; [reflexivity|]. split; [reflexivity|].
    constructor. }
  destruct tplr as [tpl|]; cbn; [|discriminate].
  destruct (Secrets_Create ns _ w1) as [[secr [e|]] w2]; cbn.
  { intros Heq. inversion Heq. eexists. split; [rewrite <- app_assoc; reflexivity|].
    split; [reflexivity|]. constructor. }
  destruct secr as [sec0|]; cbn; [|discriminate].
  destruct (time_Now w2) as [start w3]; cbn.
  destruct (TemplateInstances_Create ns _ w3) as [[tir [e|]] w4]; cbn.
  { intros Heq. inversion Heq. eexists. split; [rewrite <- !app_assoc; reflexivity|].
    split; [reflexivity|]. constructor. }
  destruct tir as [ti0|]; cbn; [|discriminate].
  destruct (TemplateInstances_Watch ns (InstanceMeta ti0) w4) as [[wr [e|]] w5]; cbn.
  { intros Heq. inversion Heq. eexists. split; [rewrite <- !app_assoc; reflexivity|].
    split; [reflexivity|]. constructor. left. reflexivity. }
  destruct wr as [watcher|]; cbn; [|discriminate].
  intros Heq.
  match type of Heq with
  | watchLoop ?t ?w ?tp ?pa ?se ?st ?i ?sc ?s0 = _ =>
      destruct (watchLoop_result t w tp pa se st sc i s0) as [(q & Hq & Hquiet) Hret]
  end.
  rewrite Heq in Hq, Hret. cbn in Hq, Hret.
  destruct (Hret ti sec d err eq_refl) as (-> & x & -> & Hx).
  destruct (quiet_not_cleanup q Hquiet) as [Hclean Hmade].
  eexists. split; [rewrite Hq, <- !app_assoc; reflexivity|]. split.
  - cbn. exact Hclean.
  - unfold creates in *. cbn. rewrite Hmade. constructor. exact Hx.
Qed.

Lemma runAllDeferred_trace (t : Smoketest) (ds : list Deferred) :
  forall s : State W, trace (runAllDeferred t ds s) = trace s ++ cleanupTrace ds.
Proof.
  induction ds as [|d ds IH]; intros s; cbn.
  - symmetry. apply app_nil_r.
  - rewrite IH. unfold runDeferred, deleteTemplate, deleteSecret, deleteTemplateInstance.
    unfold_monad. cbn.
    destruct d as [ns [tpl|] | ns [sec|] | ns [ti|]]; cbn;
      repeat (split_result; cbn); rewrite <- ?app_assoc; reflexivity.
Qed.

(** ** Run *)

(** createTemplateCheck by the three answers its one create call can get. *)
Lemma createTemplateCheck_cases (t : Smoketest) (ns id : string) (s : State W) :
  let req := testTemplate id in
  createTemplateCheck t ns id s
  = match Templates_Create ns req (world s) with
    | ((res, Some e), w) =>
        (Returned (res, Some ErrCreateTemplate),
         mkState w (trace s ++ [CallTemplatesCreate ns req res (Some e)]))
    | ((Some tpl, None), w) =>
        (Returned (Some tpl, None),
         mkState w (trace s ++ [CallTemplatesCreate ns req (Some tpl) None]))
    | ((None, None), w) =>
        (Panicked NilDereference,
         mkState w (trace s ++ [CallTemplatesCreate ns req None None]))
    end.
Proof.
  intros req. unfold createTemplateCheck. unfold_monad. cbn. fold req.
  destruct (Templates_Create ns req (world s)) as [[[tpl|] [e|]] w]; reflexivity.
Qed.

(** C2 (as amended, for the runs that return): a run that keeps no
    objects, on whatever path it returns, (1) returns what the same run
    returns when it keeps its objects and runs no cleanup at all, so no
    failure of a cleanup changes the result; (2) runs
    no cleanup before its body is over; (3) then runs each deferred delete
    function once, the instance first, the secret next, the template last,
    or the template alone when it could not be created, and each sends one
    delete request when its reference is not nil; (4) the references are
    those of what was created: when the launch failed with the secret
    created and no instance, deleteSecret gets that secret and
    deleteTemplateInstance gets nil. *)
Theorem run_cleans_up_once_in_reverse_order (t : Smoketest) (timeout : Z)
    (sched : list Event) (s s' : State W) (d : Duration) (e : option error) :
  Run t false timeout sched s = (Returned (d, e), s') ->
  exists (s0 : State W) (body : list Entry) (defers : list Deferred),
    Run t true timeout sched s = (Returned (d, e), s0) /\
    trace s0 = trace s ++ body /\
    forallb (fun entry => negb (isCleanup entry)) body = true /\
    CleansUp (namespace t) sched (creates body) defers /\
    trace s' = trace s0 ++ cleanupTrace defers.
Proof.
  unfold Run, withDeferred, RunBody. unfold_monad. cbn.
  destruct (time_Now (world s)) as [now w0]; cbn.
  rewrite createTemplateCheck_cases. cbn zeta. cbn [world trace].
  set (req := testTemplate (FormatInt10 (Unix now))).
  destruct (Templates_Create (namespace t) req w0) as [[r [e0|]] w1].
  { assert (Hfailed :
      forall out : outcome (Duration * option error) * list Deferred * State W,
        out = (Returned (0, Some ErrCreateTemplate),
               [DeferDeleteTemplate (namespace t) r],
               mkState w1 (trace s ++ [CallTemplatesCreate (namespace t) req r (Some e0)])) ->
        (let '(o, ds, s1) := out in (o, runAllDeferred t ds s1)) = (Returned (d, e), s') ->
        d = 0 /\ e = Some ErrCreateTemplate /\
        s' = runAllDeferred t [DeferDeleteTemplate (namespace t) r]
               (mkState w1 (trace s ++ [CallTemplatesCreate (namespace t) req r (Some e0)])))
      by (intros out -> Heq; inversion Heq; auto).
    intros Heq. apply Hfailed in Heq as (-> & -> & ->); [|destruct r; reflexivity].
    exists (mkState w1 (trace s ++ [CallTemplatesCreate (namespace t) req r (Some e0)])).
    exists [CallTemplatesCreate (namespace t) req r (Some e0)].
    exists [DeferDeleteTemplate (namespace t) r].
    split; [destruct r; reflexivity|]. split; [reflexivity|]. split; [reflexivity|].
    split; [constructor|].
    rewrite (runAllDeferred_trace t [DeferDeleteTemplate (namespace t) r]).
    reflexivity. }
  destruct r as [tpl|]; cbn; [|discriminate].
  destruct (launchTemplateInstanceCheck t (namespace t) (Name (TemplateMeta tpl)) _
              timeout sched _) as [[[[[ti sec] d'] err]|p] s2] eqn:Hlaunch; cbn;
    [|discriminate].
  destruct (launch_creates _ _ _ _ _ _ _ _ _ _ _ _ Hlaunch)
    as (rest & Htrace & Hclean & Hmade).
  cbn in Htrace.
  intros Heq.
  assert (Hres : (d', err) = (d, e) /\
    s' = runAllDeferred t
           [DeferDeleteTemplateInstance (namespace t) ti;
            DeferDeleteSecret (namespace t) sec;
            DeferDeleteTemplate (namespace t) (Some tpl)] s2)
    by (destruct err; inversion Heq; auto).
  destruct Hres as [Hde ->]. inversion Hde; subst d' err. clear Heq.
  exists s2. exists (CallTemplatesCreate (namespace t) req (Some tpl) None :: rest).
  eexists.
  split; [destruct e; reflexivity|].
  split; [rewrite Htrace, <- app_assoc; reflexivity|].
  split; [exact Hclean|].
  split; [cbn; constructor; exact Hmade|].
  rewrite runAllDeferred_trace. reflexivity.
Qed.

(** C8: (1) in a run whose template, secret, instance and watch are made
    and whose watch delivers, after events that leave it waiting, a Modified
    event with Ready=true as its first terminal condition, Run returns the
    time from the launch start (read between the creation of the secret and
    that of the instance, not at the start of the run) to the reading made
    as that event is taken.  Validation runs after that reading, on the
    stopped watcher: whatever it does to the world and whatever it returns,
    the duration Run returns is that one, together with the error of
    validation; when validation panics, so does Run.  (2) Run returns the
    duration and the error of the launch, whether or not it keeps its
    objects, and nothing measured later; (3) when the template cannot be
    created, Run returns that error, the first, with the zero duration. *)
Theorem launch_duration_fixed_at_ready (t : Smoketest) :
  (forall (keepObjects : bool) (timeout : Z) (before rest : list Event) (event : Event)
          (s : State W) (runStart : Time) (w0 : W) (tpl : Template) (w1 : W)
          (fetched : Template) (w2 : W) (sec : Secret) (w3 : W) (launchStart : Time)
          (w4 : W) (ti : TemplateInstance) (w5 : W) (watcher : Watcher) (w6 : W)
          (ti' : TemplateInstance) (pre post : list TemplateInstanceCondition)
          (cond : TemplateInstanceCondition),
     let ns := namespace t in
     let id := FormatInt10 (Unix runStart) in
     let templateName := Name (TemplateMeta tpl) in
     let params := getDummyTemplateParams t id in
     let secret := paramSecret templateName params in
     let request := instanceRequest templateName fetched secret in
     time_Now (world s) = (runStart, w0) ->
     Templates_Create ns (testTemplate id) w0 = ((Some tpl, None), w1) ->
     Templates_Get ns templateName w1 = ((Some fetched, None), w2) ->
     Secrets_Create ns secret w2 = ((Some sec, None), w3) ->
     time_Now w3 = (launchStart, w4) ->
     TemplateInstances_Create ns request w4 = ((Some ti, None), w5) ->
     TemplateInstances_Watch ns (InstanceMeta ti) w5 = ((Some watcher, None), w6) ->
     forallb staysPending before = true ->
     EventType event = Modified ->
     Object event = ObjTemplateInstance (Some ti') ->
     Conditions ti' = pre ++ cond :: post ->
     forallb (fun c => negb (terminal c)) pre = true ->
     condition_is TemplateInstanceReady cond = true ->
     let readyAt := time_Now (afterReads (length before) w6) in
     let stopped :=
       mkState (Watcher_Stop watcher readyAt.2)
         (trace s ++ [CallTemplatesCreate ns (testTemplate id) (Some tpl) None;
                      CallTemplatesGet ns templateName;
                      CallSecretsCreate ns secret (Some sec) None;
                      CallInstancesCreate ns request (Some ti) None;
                      CallInstancesWatch ns (InstanceMeta ti);
                      CallWatcherStop watcher]) in
     let validated := validateTemplateInstance t ti' fetched params stopped in
     (Run t keepObjects timeout (before ++ event :: rest) s).1
     = match validated.1 with
       | Returned err => Returned (Sub readyAt.1 launchStart, err)
       | Panicked p => Panicked p
       end) /\
  (forall (keepObjects : bool) (timeout : Z) (sched : list Event) (s s1 s2 : State W)
          (now : Time) (w : W) (tpl : Template) (ti : option TemplateInstance)
          (sec : option Secret) (d : Duration) (err : option error),
     time_Now (world s) = (now, w) ->
     createTemplateCheck t (namespace t) (FormatInt10 (Unix now)) (mkState w (trace s))
       = (Returned (Some tpl, None), s1) ->
     launchTemplateInstanceCheck t (namespace t) (Name (TemplateMeta tpl))
       (FormatInt10 (Unix now)) timeout sched s1
       = (Returned (ti, sec, d, err), s2) ->
     (Run t keepObjects timeout sched s).1 = Returned (d, err)) /\
  (forall (keepObjects : bool) (timeout : Z) (sched : list Event) (s s1 : State W)
          (now : Time) (w : W) (r : option Template) (e : error),
     time_Now (world s) = (now, w) ->
     createTemplateCheck t (namespace t) (FormatInt10 (Unix now)) (mkState w (trace s))
       = (Returned (r, Some e), s1) ->
     (Run t keepObjects timeout sched s).1 = Returned (0, Some e)).
Proof.
  assert (Hlaunched :
    forall (keepObjects : bool) (timeout : Z) (sched : list Event) (s s1 s2 : State W)
           (now : Time) (w : W) (tpl : Template)
           (out : outcome (option TemplateInstance * option Secret * Duration
                           * option error)),
      time_Now (world s) = (now, w) ->
      createTemplateCheck t (namespace t) (FormatInt10 (Unix now)) (mkState w (trace s))
        = (Returned (Some tpl, None), s1) ->
      launchTemplateInstanceCheck t (namespace t) (Name (TemplateMeta tpl))
        (FormatInt10 (Unix now)) timeout sched s1 = (out, s2) ->
      (Run t keepObjects timeout sched s).1
      = match out with
        | Returned (_, _, d, err) => Returned (d, err)
        | Panicked p => Panicked p
        end).
  { intros keepObjects timeout sched s s1 s2 now w tpl out Hnow Hcreate Hlaunch.
    unfold Run, withDeferred, RunBody. unfold_monad. cbn.
    rewrite Hnow. cbn. rewrite Hcreate. cbn.
    destruct keepObjects; cbn; rewrite Hlaunch; cbn;
      destruct out as [[[[ti sec] d] [e|]]|p]; reflexivity. }
  split; [| split].
  - intros keepObjects timeout before rest event s runStart w0 tpl w1 fetched w2 sec w3
      launchStart w4 ti w5 watcher w6 ti' pre post cond ns id templateName params secret
      request Hnow Hcreate Hget Hsec Hstart Hinst Hwatch Hpending Hty Hobj Hconds Hpre
      Hready readyAt stopped validated.
    pose proof (createTemplateCheck_cases t ns id (mkState w0 (trace s))) as Hcheck.
    cbv zeta in Hcheck. cbn [world trace] in Hcheck. rewrite Hcreate in Hcheck.
    pose proof (launch_reaches_loop t ns templateName id timeout (before ++ event :: rest)
                  (mkState w1 (trace s ++
                     [CallTemplatesCreate ns (testTemplate id) (Some tpl) None]))
                  fetched w2 sec w3 launchStart w4 ti w5 watcher w6
                  Hget Hsec Hstart Hinst Hwatch) as Hloop.
    rewrite watchLoop_pending_prefix in Hloop by exact Hpending.
    rewrite (proj1 (watchLoop_first_terminal t watcher fetched params (Some sec)
                      launchStart (lastInstance ti before) ti' event rest pre post cond _
                      Hty Hobj Hconds Hpre) Hready) in Hloop.
    cbn [world trace] in Hloop. rewrite <- !app_assoc in Hloop. cbn [app] in Hloop.
    assert (Hloop' :
      launchTemplateInstanceCheck t ns templateName id timeout (before ++ event :: rest)
        (mkState w1 (trace s ++
           [CallTemplatesCreate ns (testTemplate id) (Some tpl) None]))
      = (match validated.1 with
         | Returned err => Returned (Some ti', Some sec, Sub readyAt.1 launchStart, err)
         | Panicked p => Panicked p
         end, validated.2)) by exact Hloop.
    rewrite (Hlaunched keepObjects timeout (before ++ event :: rest) s _ _ runStart w0
               tpl _ Hnow Hcheck Hloop').
    destruct (validated.1) as [err|p]; reflexivity.
  - intros keepObjects timeout sched s s1 s2 now w tpl ti sec d err Hnow Hcreate Hlaunch.
    exact (Hlaunched keepObjects timeout sched s s1 s2 now w tpl _ Hnow Hcreate Hlaunch).
  - intros keepObjects timeout sched s s1 now w r e Hnow Hcreate.
    unfold Run, withDeferred, RunBody. unfold_monad. cbn.
    rewrite Hnow. cbn. rewrite Hcreate. cbn.
    destruct keepObjects; reflexivity.
Qed.

End Properties.

(** * Further properties of the package and of the monitor command *)

Section Coverage.

Context {W : Type} `{Env : Environment W}.

(** ** What validation returns and calls *)

Lemma validate_shape (t : Smoketest) (instance : TemplateInstance) (template : Template)
    (params : gmap string string) (s : State W) :
  let r := validateTemplateInstance t instance template params s in
  (exists q, trace r.2 = trace s ++ q /\ validationCalls t params q) /\
  (forall err, r.1 = Returned err ->
     err = None \/ err = Some ErrInstanceInvalid \/
     err = Some ErrLaunchInstanceFailed \/ err = Some ErrUnknown).
Proof.
  cbv zeta. unfold validateTemplateInstance, validationCalls. unfold_monad. cbn.
  repeat (split_result; cbn);
    (split;
     [ first [ exists []; split; [symmetry; apply app_nil_r | auto]
             | eexists; split; [rewrite <- ?app_assoc; reflexivity | auto] ]
     | intros err Heq; inversion Heq; auto ]).
Qed.

(** ** What the watch loop returns and calls *)

(** The range loop either finds no terminal condition and does nothing, or
    stops the watcher, once, and at most validates. *)
Lemma conditionsLoop_shape (t : Smoketest) (watcher : Watcher) (ti : TemplateInstance)
    (template : Template) (params : gmap string string) (secretResult : option Secret)
    (duration : Duration) (conds : list TemplateInstanceCondition) (s : State W) :
  let r := conditionsLoop t watcher ti template params secretResult duration conds s in
  (r = (Returned None, s) /\ forallb (fun c => negb (terminal c)) conds = true) \/
  (r.1 <> Returned None /\
   exists q, trace r.2 = trace s ++ CallWatcherStop watcher :: q /\
             validationCalls t params q /\
             forall res, r.1 = Returned (Some res) -> afterStop res.2).
Proof.
  cbv zeta. induction conds as [|cond conds IH]; cbn.
  - left. auto.
  - unfold terminal at 1.
    destruct (condition_is TemplateInstanceReady cond) eqn:Hready; cbn.
    + right. unfold_monad. cbn.
      destruct (validate_shape t ti template params
                  (mkState (Watcher_Stop watcher (world s))
                           (trace s ++ [CallWatcherStop watcher])))
        as [(q & Hq & Hcalls) Herr].
      destruct (validateTemplateInstance t ti template params _) as [[err|p] s'];
        cbn in *; (split; [discriminate|]); exists q;
        (split; [rewrite Hq, <- app_assoc; reflexivity|]);
        (split; [exact Hcalls|]); intros res Heq; inversion Heq; subst; cbn.
      apply Herr. reflexivity.
    + destruct (condition_is TemplateInstanceInstantiateFailure cond) eqn:Hfail; cbn.
      * right. unfold_monad. cbn. split; [discriminate|]. exists [].
        split; [reflexivity|]. split; [left; reflexivity|].
        intros res Heq. inversion Heq; subst; cbn. right. right. left. reflexivity.
      * exact IH.
Qed.

(** The watch loop leaves nothing in the trace and ends on the timeout or on
    an event of another type, or it stops the watcher, once, and at most
    validates. *)
Lemma watchLoop_shape (t : Smoketest) (watcher : Watcher) (template : Template)
    (params : gmap string string) (secretResult : option Secret) (launchStart : Time)
    (sched : list Event) :
  forall (ti : TemplateInstance) (s : State W),
    let r := watchLoop t watcher template params secretResult launchStart ti sched s in
    (trace r.2 = trace s /\
     forall res, r.1 = Returned res ->
       res.2 = Some ErrLaunchInstanceTimeout \/ res.2 = Some ErrUnknown) \/
    (exists q, trace r.2 = trace s ++ CallWatcherStop watcher :: q /\
               validationCalls t params q /\
               forall res, r.1 = Returned res -> afterStop res.2).
Proof.
  induction sched as [|event sched IH]; intros ti s; cbn zeta.
  - left. cbn. unfold_monad. destruct (time_Now (world s)) as [now w]. cbn.
    split; [reflexivity|]. intros res Heq. inversion Heq. auto.
  - cbn [watchLoop]. destruct (String.eqb (EventType event) Modified).
    2:{ left. unfold_monad. destruct (time_Now (world s)) as [now w]. cbn.
        split; [reflexivity|]. intros res Heq. inversion Heq. auto. }
    unfold_monad. destruct (time_Now (world s)) as [now w]. cbn -[conditionsLoop].
    destruct (Object event) as [[ti'|]|]; cbn -[conditionsLoop];
      try (left; split; [reflexivity | discriminate]).
    destruct (conditionsLoop_shape t watcher ti' template params secretResult
                (Sub now launchStart) (Conditions ti') (mkState w (trace s)))
      as [[Hnone _] | (Hsome & q & Hq & Hcalls & Herr)].
    + rewrite Hnone. apply (IH ti' (mkState w (trace s))).
    + right.
      destruct (conditionsLoop t watcher ti' template params secretResult
                  (Sub now launchStart) (Conditions ti') (mkState w (trace s)))
        as [[[res|]|p] s1]; cbn in *; [| congruence |];
        exists q; (split; [exact Hq|]); (split; [exact Hcalls|]);
        intros res' Heq; inversion Heq; subst.
      apply Herr. reflexivity.
Qed.

(** ** What a launch returns and calls *)

Ltac prefix_of_protocol := cbn; eexists; reflexivity.

Ltac trace_eq :=
  cbn -[cleanupTrace]; rewrite <- ?app_assoc; cbn -[cleanupTrace];
  rewrite ?app_nil_r; reflexivity.

Lemma launch_shape (t : Smoketest) (ns templateName id : string) (timeout : Z)
    (sched : list Event) (s : State W) :
  let r := launchTemplateInstanceCheck t ns templateName id timeout sched s in
  exists q,
    trace r.2 = trace s ++ q /\
    kindOf <$> q `prefix_of` tail protocol /\
    (length (List.filter isStopCall q) <= 1)%nat /\
    forall ti sec d err,
      r.1 = Returned (ti, sec, d, err) ->
      classified err = true /\
      (err = None -> length (List.filter isStopCall q) = 1%nat) /\
      (err = Some ErrLaunchInstanceTimeout -> List.filter isStopCall q = []).
Proof.
  cbv zeta. unfold launchTemplateInstanceCheck. unfold_monad. cbn.
  destruct (Templates_Get ns templateName (world s)) as [[tplr [e|]] w1]; cbn.
  { eexists. split; [reflexivity|]. split; [prefix_of_protocol|]. split; [cbn; lia|].
    intros ti sec d err Heq. inversion Heq. repeat split; discriminate. }
  destruct tplr as [tpl|]; cbn.
  2:{ eexists. split; [reflexivity|]. split; [prefix_of_protocol|]. split; [cbn; lia|].
      discriminate. }
  destruct (Secrets_Create ns _ w1) as [[secr [e|]] w2]; cbn.
  { eexists. split; [rewrite <- app_assoc; reflexivity|]. split; [prefix_of_protocol|].
    split; [cbn; lia|].
    intros ti sec d err Heq. inversion Heq. repeat split; discriminate. }
  destruct secr as [sec0|]; cbn.
  2:{ eexists. split; [rewrite <- app_assoc; reflexivity|]. split; [prefix_of_protocol|].
      split; [cbn; lia|]. discriminate. }
  destruct (time_Now w2) as [start w3]; cbn.
  destruct (TemplateInstances_Create ns _ w3) as [[tir [e|]] w4]; cbn.
  { eexists. split; [rewrite <- !app_assoc; reflexivity|]. split; [prefix_of_protocol|].
    split; [cbn; lia|].
    intros ti sec d err Heq. inversion Heq. repeat split; discriminate. }
  destruct tir as [ti0|]; cbn.
  2:{ eexists. split; [rewrite <- !app_assoc; reflexivity|]. split; [prefix_of_protocol|].
      split; [cbn; lia|]. discriminate. }
  destruct (TemplateInstances_Watch ns (InstanceMeta ti0) w4) as [[wr [e|]] w5]; cbn.
  { eexists. split; [rewrite <- !app_assoc; reflexivity|]. split; [prefix_of_protocol|].
    split; [cbn; lia|].
    intros ti sec d err Heq. inversion Heq. repeat split; discriminate. }
  destruct wr as [watcher|]; cbn.
  2:{ eexists. split; [rewrite <- !app_assoc; reflexivity|]. split; [prefix_of_protocol|].
      split; [cbn; lia|]. discriminate. }
  match goal with
  | |- context [watchLoop ?t ?w ?tp ?pa ?se ?st ?i ?sc ?s0] =>
      destruct (watchLoop_shape t w tp pa se st sc i s0)
        as [[Hq Herr] | (q & Hq & Hcalls & Herr)];
      destruct (watchLoop t w tp pa se st i sc s0) as [out s'] eqn:Hloop
  end; cbn in Hq, Herr |- *.
  - eexists. split; [rewrite Hq, <- !app_assoc; reflexivity|].
    split; [prefix_of_protocol|]. split; [cbn; lia|].
    intros ti sec d err Heq. pose proof (Herr _ Heq) as Herr'. cbn in Herr'.
    destruct Herr' as [-> | ->]; cbn; repeat split; discriminate || reflexivity.
  - eexists. split; [rewrite Hq, <- !app_assoc; reflexivity|].
    destruct Hcalls as [-> | [-> | ->]];
      (split; [prefix_of_protocol|]); (split; [cbn; lia|]);
      intros ti sec d err Heq;
      pose proof (Herr _ Heq) as Herr'; cbn in Herr';
      destruct Herr' as [-> | [-> | [-> | ->]]];
      repeat split; discriminate || reflexivity.
Qed.

(** ** What a run returns and calls *)

(** The body of Run, by what its two checks answer. *)
Lemma RunBody_cases (t : Smoketest) (keepObjects : bool) (timeout : Z)
    (sched : list Event) (s : State W) :
  let ns := namespace t in
  let now := time_Now (world s) in
  let id := FormatInt10 (Unix now.1) in
  let deferred (ds : list Deferred) := if keepObjects then [] else ds in
  RunBody t keepObjects timeout sched [] s
  = match createTemplateCheck t ns id (mkState now.2 (trace s)) with
    | (Panicked p, s1) => (Panicked p, [], s1)
    | (Returned (template, Some e), s1) =>
        (Returned (0, Some e), deferred [DeferDeleteTemplate ns template], s1)
    | (Returned (None, None), s1) =>
        (Panicked NilDereference, deferred [DeferDeleteTemplate ns None], s1)
    | (Returned (Some tpl, None), s1) =>
        match launchTemplateInstanceCheck t ns (Name (TemplateMeta tpl)) id
                timeout sched s1 with
        | (Panicked p, s2) =>
            (Panicked p, deferred [DeferDeleteTemplate ns (Some tpl)], s2)
        | (Returned (ti, sec, d, err), s2) =>
            (Returned (d, err),
             deferred [DeferDeleteTemplateInstance ns ti; DeferDeleteSecret ns sec;
                       DeferDeleteTemplate ns (Some tpl)], s2)
        end
    end.
Proof.
  cbv zeta. unfold RunBody. unfold_monad. cbn.
  destruct (time_Now (world s)) as [now w0]; cbn.
  destruct (createTemplateCheck t (namespace t) (FormatInt10 (Unix now))
              (mkState w0 (trace s))) as [[[template [e|]]|p] s1];
    destruct keepObjects; cbn; try reflexivity;
    destruct template as [tpl|]; cbn; try reflexivity;
    destruct (launchTemplateInstanceCheck t (namespace t) (Name (TemplateMeta tpl))
                (FormatInt10 (Unix now)) timeout sched s1)
      as [[[[[ti sec] d] [e|]]|p] s2]; reflexivity.
Qed.

Lemma Run_shape (t : Smoketest) (keepObjects : bool) (timeout : Z) (sched : list Event)
    (s : State W) :
  let r := Run t keepObjects timeout sched s in
  exists (body : list Entry) (ds : list Deferred),
    trace r.2 = trace s ++ body ++ cleanupTrace ds /\
    kindOf <$> body `prefix_of` protocol /\
    (keepObjects = true -> ds = []) /\
    (length (List.filter isStopCall body) <= 1)%nat /\
    forall d err,
      r.1 = Returned (d, err) ->
      classified err = true /\
      (err = None -> length (List.filter isStopCall body) = 1%nat) /\
      (err = Some ErrLaunchInstanceTimeout -> List.filter isStopCall body = []).
Proof.
  cbv zeta. unfold Run, withDeferred. rewrite RunBody_cases. cbv zeta.
  destruct (time_Now (world s)) as [now w0]; cbn [fst snd].
  rewrite createTemplateCheck_cases. cbv zeta. cbn [world trace].
  set (req := testTemplate (FormatInt10 (Unix now))).
  set (deferred := fun ds : list Deferred => if keepObjects then [] else ds).
  assert (Hkeep : forall ds, keepObjects = true -> deferred ds = [])
    by (intros ds ->; reflexivity).
  destruct (Templates_Create (namespace t) req w0) as [[[tpl|] [e0|]] w1].
  - eexists [_], (deferred _). cbn [fst snd]. rewrite runAllDeferred_trace.
    split; [trace_eq|]. split; [prefix_of_protocol|]. split; [apply Hkeep|].
    split; [cbn; lia|]. intros d err Heq. inversion Heq. repeat split; discriminate.
  - pose proof (launch_shape t (namespace t) (Name (TemplateMeta tpl))
                  (FormatInt10 (Unix now)) timeout sched
                  (mkState w1 (trace s ++
                     [CallTemplatesCreate (namespace t) req (Some tpl) None])))
      as Hshape.
    cbv zeta in Hshape.
    destruct (launchTemplateInstanceCheck t (namespace t) (Name (TemplateMeta tpl))
                (FormatInt10 (Unix now)) timeout sched _) as [out s2].
    destruct Hshape as (q & Hq & [k Hk] & Hstops & Hret). cbn in Hq, Hret.
    exists (CallTemplatesCreate (namespace t) req (Some tpl) None :: q).
    destruct out as [[[[ti sec] d'] err']|p]; eexists (deferred _);
      cbn [fst snd]; rewrite runAllDeferred_trace;
      (split; [rewrite Hq; trace_eq|]);
      (split; [exists k; unfold protocol in *; cbn [tail] in Hk;
               rewrite fmap_cons; cbn [kindOf app]; f_equal; exact Hk|]);
      (split; [apply Hkeep|]); (split; [exact Hstops|]).
    + intros d err Heq. inversion Heq; subst. apply (Hret ti sec d err eq_refl).
    + discriminate.
  - eexists [_], (deferred _). cbn [fst snd]. rewrite runAllDeferred_trace.
    split; [trace_eq|]. split; [prefix_of_protocol|]. split; [apply Hkeep|].
    split; [cbn; lia|]. intros d err Heq. inversion Heq. repeat split; discriminate.
  - eexists [_], []. cbn.
    split; [trace_eq|]. split; [prefix_of_protocol|]. split; [reflexivity|].
    split; [cbn; lia|]. discriminate.
Qed.

Lemma protocol_has_no_cleanup (body : list Entry) :
  kindOf <$> body `prefix_of` protocol ->
  forallb (fun entry => negb (isCleanup entry)) body = true.
Proof.
  intros [k Hk]. apply forallb_forall. intros e Hin.
  assert (Hkind : kindOf e ∈ protocol).
  { rewrite Hk. apply elem_of_app. left. apply list_elem_of_fmap.
    exists e. split; [reflexivity|]. apply list_elem_of_In. exact Hin. }
  unfold protocol in Hkind.
  destruct e; cbn in *; try reflexivity;
    repeat (apply elem_of_cons in Hkind as [Hkind | Hkind]; [discriminate|]);
    apply elem_of_nil in Hkind; contradiction.
Qed.

(** X1: whatever the environment answers and however the run ends, its
    calls before cleanup are a beginning of one fixed sequence: create the
    template, get it, create the secret, create the instance, open the
    watch, stop the watcher, get the config map, get the job.  No call is
    made twice or out of this order, and the cleanup follows. *)
Theorem run_calls_follow_the_protocol (t : Smoketest) (keepObjects : bool) (timeout : Z)
    (sched : list Event) (s : State W) :
  exists (body : list Entry) (ds : list Deferred),
    trace (Run t keepObjects timeout sched s).2 = trace s ++ body ++ cleanupTrace ds /\
    kindOf <$> body `prefix_of` protocol.
Proof.
  destruct (Run_shape t keepObjects timeout sched s) as (body & ds & Htrace & Hprefix & _).
  exists body, ds. split; assumption.
Qed.

(** X2: the error Run returns is nil or one of six values of the package:
    an error of the cluster client never reaches the caller as it is, and
    ErrInitTest is never returned by Run. *)
Theorem run_error_is_classified (t : Smoketest) (keepObjects : bool) (timeout : Z)
    (sched : list Event) (s : State W) (d : Duration) (err : option error) :
  (Run t keepObjects timeout sched s).1 = Returned (d, err) ->
  classified err = true.
Proof.
  intros Heq.
  destruct (Run_shape t keepObjects timeout sched s) as (body & ds & _ & _ & _ & _ & Hret).
  apply (Hret d err Heq).
Qed.

(** X3: a run that keeps its objects sends no delete request and runs no
    deferred call, however it ends. *)
Theorem keeping_objects_deletes_nothing (t : Smoketest) (timeout : Z)
    (sched : list Event) (s : State W) :
  exists body : list Entry,
    trace (Run t true timeout sched s).2 = trace s ++ body /\
    forallb (fun entry => negb (isCleanup entry)) body = true.
Proof.
  destruct (Run_shape t true timeout sched s) as (body & ds & Htrace & Hprefix & Hkeep & _).
  exists body. rewrite (Hkeep eq_refl) in Htrace. cbn in Htrace.
  rewrite app_nil_r in Htrace. split; [exact Htrace|].
  apply protocol_has_no_cleanup, Hprefix.
Qed.

(** X16: a run that keeps no objects and panics has deferred at most the
    delete of the template when the panic starts: after the calls of its
    body, which hold no cleanup, it runs that one deferred call or none, and
    so sends no delete request for a secret or an instance, created or
    not. *)
Theorem panicking_run_deletes_the_template_only (t : Smoketest) (timeout : Z)
    (sched : list Event) (s s' : State W) (p : panic) :
  Run t false timeout sched s = (Panicked p, s') ->
  exists (body : list Entry) (ds : list Deferred),
    trace s' = trace s ++ body ++ cleanupTrace ds /\
    forallb (fun entry => negb (isCleanup entry)) body = true /\
    (ds = [] \/ exists r, ds = [DeferDeleteTemplate (namespace t) r]).
Proof.
  unfold Run, withDeferred. rewrite RunBody_cases. cbv zeta.
  destruct (time_Now (world s)) as [now w0]; cbn [fst snd].
  rewrite createTemplateCheck_cases. cbv zeta. cbn [world trace].
  set (req := testTemplate (FormatInt10 (Unix now))).
  destruct (Templates_Create (namespace t) req w0) as [[[tpl|] [e0|]] w1].
  - discriminate.
  - pose proof (launch_shape t (namespace t) (Name (TemplateMeta tpl))
                  (FormatInt10 (Unix now)) timeout sched
                  (mkState w1 (trace s ++
                     [CallTemplatesCreate (namespace t) req (Some tpl) None])))
      as Hshape.
    cbv zeta in Hshape.
    destruct (launchTemplateInstanceCheck t (namespace t) (Name (TemplateMeta tpl))
                (FormatInt10 (Unix now)) timeout sched _) as [out s2].
    destruct Hshape as (q & Hq & [k Hk] & _). cbn in Hq.
    destruct out as [[[[ti sec] d'] err']|p']; [discriminate|].
    intros Heq. apply (f_equal snd) in Heq. cbn [snd] in Heq. rewrite <- Heq.
    exists (CallTemplatesCreate (namespace t) req (Some tpl) None :: q),
           [DeferDeleteTemplate (namespace t) (Some tpl)].
    split; [rewrite runAllDeferred_trace, Hq; trace_eq|].
    split; [|right; eexists; reflexivity].
    apply protocol_has_no_cleanup. exists k. unfold protocol in *. cbn [tail] in Hk.
    rewrite fmap_cons. cbn [kindOf app]. f_equal. exact Hk.
  - discriminate.
  - intros Heq. apply (f_equal snd) in Heq. cbn [snd] in Heq. rewrite <- Heq.
    exists [CallTemplatesCreate (namespace t) req None None], [].
    split; [trace_eq|]. split; [reflexivity | left; reflexivity].
Qed.

(** X4: a run stops its watcher at most once; a run that returns no error
    has stopped it exactly once, and a run that returns
    ErrLaunchInstanceTimeout has not stopped it. *)
Theorem watcher_stopped_at_most_once (t : Smoketest) (keepObjects : bool) (timeout : Z)
    (sched : list Event) (s : State W) :
  exists (body : list Entry) (ds : list Deferred),
    trace (Run t keepObjects timeout sched s).2 = trace s ++ body ++ cleanupTrace ds /\
    (length (List.filter isStopCall body) <= 1)%nat /\
    forall d err,
      (Run t keepObjects timeout sched s).1 = Returned (d, err) ->
      (err = None -> length (List.filter isStopCall body) = 1%nat) /\
      (err = Some ErrLaunchInstanceTimeout -> List.filter isStopCall body = []).
Proof.
  destruct (Run_shape t keepObjects timeout sched s)
    as (body & ds & Htrace & _ & _ & Hstops & Hret).
  exists body, ds. split; [exact Htrace|]. split; [exact Hstops|].
  intros d err Heq. apply (Hret d err Heq).
Qed.

(** X5: the watch loop reads no event after the first one that does not
    leave it waiting (an event of another type, a Modified event without an
    instance, or one with a terminal condition): what follows that event in
    the stream does not change the result. *)
Theorem watch_ignores_what_follows (t : Smoketest) (watcher : Watcher)
    (template : Template) (params : gmap string string) (secretResult : option Secret)
    (launchStart : Time) (ti : TemplateInstance) (before rest rest' : list Event)
    (event : Event) (s : State W) :
  forallb staysPending before = true ->
  staysPending event = false ->
  watchLoop t watcher template params secretResult launchStart ti
    (before ++ event :: rest) s
  = watchLoop t watcher template params secretResult launchStart ti
      (before ++ event :: rest') s.
Proof.
  intros Hbefore Hevent.
  rewrite !watchLoop_pending_prefix by exact Hbefore.
  generalize (lastInstance ti before)
             (mkState (afterReads (length before) (world s)) (trace s)).
  clear ti s Hbefore. intros ti s.
  unfold staysPending in Hevent. cbn [watchLoop].
  destruct (String.eqb (EventType event) Modified); [|reflexivity].
  cbn in Hevent. unfold_monad.
  destruct (time_Now (world s)) as [now w]. cbn -[conditionsLoop].
  destruct (Object event) as [[ti'|]|]; cbn -[conditionsLoop]; try reflexivity.
  destruct (conditionsLoop_shape t watcher ti' template params secretResult
              (Sub now launchStart) (Conditions ti') (mkState w (trace s)))
    as [[_ Hnone] | [Hsome _]]; [congruence|].
  destruct (conditionsLoop t watcher ti' template params secretResult
              (Sub now launchStart) (Conditions ti') (mkState w (trace s)))
    as [[[res|]|p] s1]; cbn in *; congruence.
Qed.

(** X6: validation only reads: it makes no call when the labels differ, and
    otherwise gets the config map and then, at most, the job; it returns no
    error, ErrInstanceInvalid, ErrLaunchInstanceFailed or ErrUnknown. *)
Theorem validation_only_reads (t : Smoketest) (instance : TemplateInstance)
    (template : Template) (params : gmap string string) (s : State W) :
  let r := validateTemplateInstance t instance template params s in
  (exists q, trace r.2 = trace s ++ q /\ validationCalls t params q) /\
  (Labels (InstanceMeta instance) <> Labels (TemplateMeta template) -> r.2 = s) /\
  (forall err, r.1 = Returned err -> afterStop err).
Proof.
  cbv zeta. destruct (validate_shape t instance template params s) as [Hcalls Herr].
  split; [exact Hcalls|]. split; [|exact Herr].
  intros Hlabels. unfold validateTemplateInstance.
  destruct (DeepEqual (Labels (TemplateMeta template)) (Labels (InstanceMeta instance)))
    eqn:Heq; [|reflexivity].
  apply DeepEqual_true in Heq. congruence.
Qed.

(** X7: for a launch that returns (a launch that panics returns nothing):
    when it has created the instance, the instance it returns for cleanup is
    not nil, and it has the name of the created one when every Modified
    event of the watch carries an instance of that name (the watch is on
    that one object); when it has not created the instance, the instance it
    returns is nil. *)
Theorem returned_instance_has_created_name (t : Smoketest) (ns templateName id : string)
    (timeout : Z) (sched : list Event) (s s' : State W) (ti : option TemplateInstance)
    (sec : option Secret) (d : Duration) (err : option error) :
  launchTemplateInstanceCheck t ns templateName id timeout sched s
  = (Returned (ti, sec, d, err), s') ->
  exists made : list Entry,
    trace s' = trace s ++ made /\
    (forall (req i : TemplateInstance),
       In (CallInstancesCreate ns req (Some i) None) made ->
       exists x, ti = Some x /\
         ((forall event x',
             In event sched -> Object event = ObjTemplateInstance (Some x') ->
             Name (InstanceMeta x') = Name (InstanceMeta i)) ->
          Name (InstanceMeta x) = Name (InstanceMeta i))) /\
    ((forall (req i : TemplateInstance),
        ~ In (CallInstancesCreate ns req (Some i) None) made) ->
     ti = None).
Proof.
  intros Hlaunch.
  destruct (launch_creates t ns templateName id timeout sched s s' ti sec d err Hlaunch)
    as (rest & Htrace & _ & Hmade).
  exists rest. split; [exact Htrace|]. split.
  - intros req i Hin.
    assert (Hin' : In (CallInstancesCreate ns req (Some i) None) (creates rest))
      by (apply filter_In; split; [exact Hin | reflexivity]).
    inversion Hmade as [Hc | ? ? ? Hc | ? ? ? ? ? Hc | ? ? ? i0 x Hx Hc];
      rewrite <- Hc in Hin'; cbn in Hin'.
    + contradiction.
    + destruct Hin' as [Heq | []]; discriminate.
    + destruct Hin' as [Heq | [Heq | []]]; discriminate.
    + destruct Hin' as [Heq | [Heq | []]]; [discriminate|].
      inversion Heq; subst. exists x. split; [reflexivity|]. intros Hnames.
      destruct Hx as [-> | (event & Hev & Hobj)]; [reflexivity|].
      apply (Hnames event x Hev Hobj).
  - intros Hnone.
    inversion Hmade as [Hc | ? ? ? Hc | ? ? ? ? ? Hc | ? ? ireq i0 x Hx Hc];
      try reflexivity.
    exfalso. apply (Hnone ireq i0).
    assert (Hin : In (CallInstancesCreate ns ireq (Some i0) None) (creates rest))
      by (rewrite <- Hc; right; left; reflexivity).
    apply filter_In in Hin. exact (proj1 Hin).
Qed.

(** ** Creation errors *)

(** A launch that returns a creation error has not reached its watch loop:
    its duration is still zero and it returns no instance. *)
Lemma launch_creation_error (t : Smoketest) (ns templateName id : string) (timeout : Z)
    (sched : list Event) (s : State W) (ti : option TemplateInstance)
    (sec : option Secret) (d : Duration) (err : option error) :
  (launchTemplateInstanceCheck t ns templateName id timeout sched s).1
  = Returned (ti, sec, d, err) ->
  creationError err ->
  d = 0 /\ ti = None.
Proof.
  unfold launchTemplateInstanceCheck, creationError. unfold_monad. cbn.
  destruct (Templates_Get ns templateName (world s)) as [[tplr [e|]] w1]; cbn.
  { intros Heq _. inversion Heq. auto. }
  destruct tplr as [tpl|]; cbn; [|discriminate].
  destruct (Secrets_Create ns _ w1) as [[secr [e|]] w2]; cbn.
  { intros Heq _. inversion Heq. auto. }
  destruct secr as [sec0|]; cbn; [|discriminate].
  destruct (time_Now w2) as [start w3]; cbn.
  destruct (TemplateInstances_Create ns _ w3) as [[tir [e|]] w4]; cbn.
  { intros Heq _. inversion Heq. auto. }
  destruct tir as [ti0|]; cbn; [|discriminate].
  destruct (TemplateInstances_Watch ns (InstanceMeta ti0) w4) as [[wr [e|]] w5]; cbn.
  { intros Heq [Herr | Herr]; inversion Heq; subst; discriminate. }
  destruct wr as [watcher|]; cbn; [|discriminate].
  match goal with
  | |- context [watchLoop ?t ?w ?tp ?pa ?se ?st ?i ?sc ?s0] =>
      destruct (watchLoop_shape t w tp pa se st sc i s0)
        as [[_ Herr] | (q & _ & _ & Herr)];
      destruct (watchLoop t w tp pa se st i sc s0) as [out s']
  end; cbn in Herr |- *; intros Heq Hcreation; subst out;
    pose proof (Herr _ eq_refl) as Herr'; cbn in Herr'; unfold afterStop in Herr';
    intuition congruence.
Qed.

(** X15: a run that returns ErrCreateTemplate or ErrCreateInstance returns a
    launch duration of zero: these two errors are only returned before the
    watch loop is entered, where the duration is first set. *)
Theorem creation_errors_have_zero_duration (t : Smoketest) (keepObjects : bool)
    (timeout : Z) (sched : list Event) (s : State W) (d : Duration) (err : option error) :
  (Run t keepObjects timeout sched s).1 = Returned (d, err) ->
  creationError err ->
  d = 0.
Proof.
  unfold Run, withDeferred. rewrite RunBody_cases. cbv zeta.
  destruct (time_Now (world s)) as [now w0]; cbn [fst snd].
  rewrite createTemplateCheck_cases. cbv zeta. cbn [world trace].
  destruct (Templates_Create (namespace t) _ w0) as [[[tpl|] [e0|]] w1].
  - cbn. intros Heq _. inversion Heq. reflexivity.
  - pose proof (launch_creation_error t (namespace t) (Name (TemplateMeta tpl))
                  (FormatInt10 (Unix now)) timeout sched
                  (mkState w1 (trace s ++
                     [CallTemplatesCreate (namespace t)
                        (testTemplate (FormatInt10 (Unix now))) (Some tpl) None])))
      as Hlaunch.
    destruct (launchTemplateInstanceCheck t (namespace t) (Name (TemplateMeta tpl))
                (FormatInt10 (Unix now)) timeout sched _) as [out s2].
    destruct out as [[[[ti sec] d'] err']|p]; cbn [fst snd]; [|discriminate].
    intros Heq Hcreation. inversion Heq; subst.
    apply (Hlaunch ti sec d err eq_refl Hcreation).
  - cbn. intros Heq _. inversion Heq. reflexivity.
  - cbn. discriminate.
Qed.

(** ** Names, parameters and the secret *)

(** X8: the secret of a launch carries the parameter set without loss: it
    has the keys of the parameters, and its values, read back as strings,
    are the parameters. *)
Theorem secret_carries_the_parameters (templateName : string)
    (params : gmap string string) :
  dom (SecretData (paramSecret templateName params)) = dom params /\
  string_of_list_byte <$> SecretData (paramSecret templateName params) = params.
Proof.
  unfold paramSecret. cbn. split; [apply dom_fmap_L|].
  apply map_eq. intros k. rewrite !lookup_fmap.
  destruct (params !! k) as [v|]; cbn; [|reflexivity].
  unfold bytes_of. rewrite string_of_list_byte_of_string. reflexivity.
Qed.

Lemma dummy_param_ID (t : Smoketest) (id : string) :
  index (getDummyTemplateParams t id) "ID" = id.
Proof. unfold index, getDummyTemplateParams. rewrite lookup_insert_eq. reflexivity. Qed.

(** X9: the identifier of a run is the decimal of the Unix second at which
    it starts, so two runs share their identifier, and with it the names of
    their template, config map and job, exactly when they start within the
    same second. *)
Theorem runs_share_names_within_a_second (t : Smoketest) (t1 t2 : Time) :
  let id1 := FormatInt10 (Unix t1) in
  let id2 := FormatInt10 (Unix t2) in
  (id1 = id2 <-> Unix t1 = Unix t2) /\
  (Name (TemplateMeta (testTemplate id1)) = Name (TemplateMeta (testTemplate id2))
   <-> Unix t1 = Unix t2) /\
  (configMapName (getDummyTemplateParams t id1) = configMapName (getDummyTemplateParams t id2)
   <-> Unix t1 = Unix t2) /\
  (jobName (getDummyTemplateParams t id1) = jobName (getDummyTemplateParams t id2)
   <-> Unix t1 = Unix t2).
Proof.
  cbv zeta.
  assert (Hid : FormatInt10 (Unix t1) = FormatInt10 (Unix t2) <-> Unix t1 = Unix t2).
  { split; [|congruence]. unfold FormatInt10. apply pretty_Z_inj. }
  unfold configMapName, jobName. rewrite !dummy_param_ID. cbn [testTemplate TemplateMeta Name].
  repeat split; try (intros Heq; apply Hid; exact Heq);
    try (intros Heq; apply Hid in Heq; rewrite Heq; reflexivity);
    intros Heq; apply Hid; eapply String.app_inj; exact Heq.
Qed.

(** X10: the dummy parameters give a value to exactly the parameters the
    test template declares, for every identifier. *)
Theorem dummy_params_match_declared (t : Smoketest) (id : string) :
  dom (getDummyTemplateParams t id)
  = list_to_set (ParamName <$> TemplateParameters (testTemplate id)).
Proof.
  unfold getDummyTemplateParams. rewrite !dom_insert_L, dom_empty_L. cbn. set_solver.
Qed.

(** ** Initialisation *)

(** X11: NewSmoketest succeeds exactly when the five loading steps all
    succeed, and any failure is reported as ErrInitTest.  The steps are made
    in order up to the first that fails and no further.  The three client
    fields are set together, only on success; the namespace is set as soon
    as it is loaded, also when a later step fails. *)
Theorem init_is_all_or_nothing (l : Loading) :
  let '(h, err, steps) := NewSmoketest l in
  (err = None <-> forall step, answer l step = None) /\
  (err = None \/ err = Some ErrInitTest) /\
  steps `prefix_of` allSteps /\
  (forall step, In step steps -> answer l step <> None -> last steps = Some step) /\
  (err = None -> steps = allSteps) /\
  (templateInterface h = true <-> err = None) /\
  (projectInterface h = true <-> err = None) /\
  (k8sInterface h = true <-> err = None) /\
  handleNamespace h
  = match (kubeconfig_Namespace l).2 with
    | Some _ => ""
    | None => (kubeconfig_Namespace l).1
    end.
Proof.
  unfold NewSmoketest, init, allSteps.
  destruct l as [[namespace [e1|]] [e2|] [e3|] [e4|] [e5|]]; cbn;
    (split; [split; [discriminate || (intros _ [| | | |]; reflexivity)
                    | intros Hall; first [reflexivity
                        | pose proof (Hall LoadNamespace); discriminate
                        | pose proof (Hall LoadClientConfig); discriminate
                        | pose proof (Hall NewTemplateClient); discriminate
                        | pose proof (Hall NewProjectClient); discriminate
                        | pose proof (Hall NewK8sClient); discriminate]]|]);
    (split; [auto|]);
    (split; [eexists; reflexivity|]);
    (split; [intros step Hin Hfail;
             repeat (destruct Hin as [<- | Hin]; [try reflexivity; cbn in Hfail; congruence|]);
             destruct Hin|]);
    (split; [discriminate || reflexivity|]);
    repeat split; intros; try reflexivity; discriminate.
Qed.

Lemma NewSmoketest_fails (l : Loading) :
  (exists step, answer l step <> None) ->
  exists h steps, NewSmoketest l = (h, Some ErrInitTest, steps).
Proof.
  intros [step Hfail]. unfold NewSmoketest, init.
  destruct l as [[namespace [e1|]] [e2|] [e3|] [e4|] [e5|]]; cbn; eauto.
  destruct step; cbn in Hfail; congruence.
Qed.

Lemma NewSmoketest_succeeds (l : Loading) :
  (forall step, answer l step = None) ->
  NewSmoketest l = (mkHandle (kubeconfig_Namespace l).1 true true true, None, allSteps).
Proof.
  intros Hall. unfold NewSmoketest, init.
  pose proof (Hall LoadNamespace) as H1. pose proof (Hall LoadClientConfig) as H2.
  pose proof (Hall NewTemplateClient) as H3. pose proof (Hall NewProjectClient) as H4.
  pose proof (Hall NewK8sClient) as H5.
  destruct l as [[namespace e1] e2 e3 e4 e5]. cbn in *. subst. reflexivity.
Qed.

Lemma NewSmoketest_error (l : Loading) :
  (NewSmoketest l).1.2 = None \/ (NewSmoketest l).1.2 = Some ErrInitTest.
Proof.
  unfold NewSmoketest, init.
  destruct l as [[namespace [e1|]] [e2|] [e3|] [e4|] [e5|]]; cbn; auto.
Qed.

Lemma labels_in_series (err : option error) :
  classified err = true \/ err = Some ErrInitTest ->
  In (resultLabels err) labelSeries.
Proof.
  intros [Hclass | ->]; [|right; left; reflexivity].
  destruct err as [[]|]; try discriminate; cbn; auto 10.
Qed.

(** ** The monitor command *)

(** X12: a smoketest of the monitor that returns has written one series,
    the same in its three gauges: success without a reason, or failure with
    one of the seven tags as the reason.  Every other series of the three
    gauges keeps the value it had, the series of an earlier outcome
    included. *)
Theorem smoketest_publishes_one_series (l : Loading) (keepObjects : bool) (timeout : Z)
    (sched : list Event) (g g' : Gauges) (s s' : State W) :
  doSmoketest l keepObjects timeout sched g s = (Returned g', s') ->
  exists (labels : string * string) (now : Time) (launch total : Duration),
    In labels labelSeries /\
    templateTestGauge g' = <[labels := now]> (templateTestGauge g) /\
    templateLaunchGauge g' = <[labels := launch]> (templateLaunchGauge g) /\
    totalDurationGauge g' = <[labels := total]> (totalDurationGauge g) /\
    forall other, other <> labels ->
      templateTestGauge g' !! other = templateTestGauge g !! other /\
      templateLaunchGauge g' !! other = templateLaunchGauge g !! other /\
      totalDurationGauge g' !! other = totalDurationGauge g !! other.
Proof.
  unfold doSmoketest, publishResult. unfold_monad. cbn.
  destruct (time_Now (world s)) as [start w0]; cbn.
  pose proof (NewSmoketest_error l) as Hinit.
  destruct (NewSmoketest l) as [[h err] steps]. cbn in Hinit.
  destruct err as [e|].
  - destruct Hinit as [Hinit | Hinit]; [discriminate|]. inversion Hinit; subst e.
    cbn. destruct (time_Now w0) as [now1 w1]; cbn.
    destruct (time_Now w1) as [now2 w2]; cbn.
    intros Heq. inversion Heq; subst; cbn.
    exists (resultLabels (Some ErrInitTest)), now2, 0, (Sub now1 start).
    split; [apply labels_in_series; right; reflexivity|].
    split; [reflexivity|]. split; [reflexivity|]. split; [reflexivity|].
    intros other Hne.
    rewrite !lookup_insert_ne by (intros Hk; apply Hne; symmetry; exact Hk). auto.
  - pose proof (Run_shape (smoketestOf h) keepObjects timeout sched (mkState w0 (trace s)))
      as (body & ds & _ & _ & _ & _ & Hret).
    destruct (Run (smoketestOf h) keepObjects timeout sched (mkState w0 (trace s)))
      as [[[d err]|p] s1]; cbn; [|discriminate].
    destruct (Hret d err eq_refl) as [Hclass _].
    destruct (time_Now (world s1)) as [now1 w1]; cbn.
    destruct (time_Now w1) as [now2 w2]; cbn.
    intros Heq. inversion Heq; subst; cbn.
    exists (resultLabels err), now2, d, (Sub now1 start).
    split; [apply labels_in_series; left; exact Hclass|].
    split; [reflexivity|]. split; [reflexivity|]. split; [reflexivity|].
    intros other Hne.
    rewrite !lookup_insert_ne by (intros Hk; apply Hne; symmetry; exact Hk). auto.
Qed.

(** X13: when a loading step fails, the smoketest of the monitor makes no
    call to the cluster: it reads the clock three times and publishes, under
    failure and InitTestFailed, the zero launch duration and the time
    between its first two readings, whatever the flags and the watch. *)
Theorem failed_init_publishes_without_calls (l : Loading) (keepObjects : bool)
    (timeout : Z) (sched : list Event) (g : Gauges) (s : State W) :
  (exists step, answer l step <> None) ->
  let start := time_Now (world s) in
  let finish := time_Now start.2 in
  let published := time_Now finish.2 in
  let labels := ("failure", "InitTestFailed") in
  doSmoketest l keepObjects timeout sched g s
  = (Returned
       {| templateTestGauge := <[labels := published.1]> (templateTestGauge g);
          templateLaunchGauge := <[labels := 0]> (templateLaunchGauge g);
          totalDurationGauge :=
            <[labels := Sub finish.1 start.1]> (totalDurationGauge g) |},
     mkState published.2 (trace s)).
Proof.
  intros Hfail. cbv zeta.
  destruct (NewSmoketest_fails l Hfail) as (h & steps & Hinit).
  unfold doSmoketest, publishResult. unfold_monad. cbn.
  destruct (time_Now (world s)) as [start w0]; cbn. rewrite Hinit. cbn.
  destruct (time_Now w0) as [now1 w1]; cbn.
  destruct (time_Now w1) as [now2 w2]; cbn. reflexivity.
Qed.

(** X14: when the five loading steps succeed, the smoketest of the monitor
    runs Run in the namespace that was loaded and publishes, under the
    labels of the error Run returned, the launch duration Run returned and,
    as the total, the time from its own start to a reading made after Run
    and its cleanup are over. *)
Theorem smoketest_publishes_what_run_returned (l : Loading) (keepObjects : bool)
    (timeout : Z) (sched : list Event) (g : Gauges) (s s1 : State W)
    (d : Duration) (err : option error) :
  (forall step, answer l step = None) ->
  let start := time_Now (world s) in
  let test := mkSmoketest (kubeconfig_Namespace l).1 in
  Run test keepObjects timeout sched (mkState start.2 (trace s)) = (Returned (d, err), s1) ->
  let finish := time_Now (world s1) in
  let published := time_Now finish.2 in
  let labels := resultLabels err in
  doSmoketest l keepObjects timeout sched g s
  = (Returned
       {| templateTestGauge := <[labels := published.1]> (templateTestGauge g);
          templateLaunchGauge := <[labels := d]> (templateLaunchGauge g);
          totalDurationGauge :=
            <[labels := Sub finish.1 start.1]> (totalDurationGauge g) |},
     mkState published.2 (trace s1)).
Proof.
  intros Hall. cbv zeta. intros Hrun.
  unfold doSmoketest, publishResult. unfold_monad. cbn.
  rewrite (NewSmoketest_succeeds l Hall). cbn.
  destruct (time_Now (world s)) as [start w0]; cbn in *.
  unfold smoketestOf. cbn. rewrite Hrun. cbn.
  destruct (time_Now (world s1)) as [now1 w1]; cbn.
  destruct (time_Now w1) as [now2 w2]; cbn. reflexivity.
Qed.

End Coverage.

(** * Concrete runs on the in-memory environment *)

Module Scenario.

Import InMemory Fixtures.

(** The end-to-end scenario: one Modified event with Ready=true, matching
    objects; Run returns the launch duration and no error. *)
Example run_ready :
  (Run smoketest false 60 [modified [ready]] (initial healthy)).1
  = Returned (1500000000, None).
Proof. vm_compute. reflexivity. Qed.

(** C1 does not hold in every order: an event that carries both
    InstantiateFailure=true and Ready=true, in this order, on a cluster where
    validation would pass, returns ErrLaunchInstanceFailed and validation is
    never called; with the two conditions in the other order the same run
    returns no error. *)
Lemma failure_listed_first_wins :
  let both := [failed; ready] in
  let run := Run smoketest true 60 [modified both] (initial healthy) in
  In ready both /\ In failed both /\
  run.1 = Returned (1500000000, Some ErrLaunchInstanceFailed) /\
  List.filter isValidation (trace run.2) = [] /\
  (Run smoketest true 60 [modified [ready; failed]] (initial healthy)).1
  = Returned (1500000000, None).
Proof.
  cbv zeta. split; [right; left; reflexivity|]. split; [left; reflexivity|].
  split; [vm_compute; reflexivity|]. split; vm_compute; reflexivity.
Qed.

(** C3 fails on the source: the timer fires with no event delivered; Run
    returns ErrLaunchInstanceTimeout, one watch was opened, and no watcher
    was stopped, neither in the trace nor in the cluster.  The Ready and
    InstantiateFailure cases stop the watcher; the timeout case does not
    ([timeout_case_stops_nothing] says so for every environment). *)
Lemma timeout_leaves_watch_open :
  let run := Run smoketest true 60 [] (initial healthy) in
  run.1 = Returned (1500000000, Some ErrLaunchInstanceTimeout) /\
  opened (world run.2) = 1%nat /\
  stopped (world run.2) = [] /\
  List.filter isStop (trace run.2) = [].
Proof. cbv zeta. repeat split; vm_compute; reflexivity. Qed.

(** C9 does not hold for a resource already deleted: a template that is
    there is deleted without error, and the same delete once more returns
    the not-found error of the cluster; likewise for a secret and an
    instance that are not there. *)
Lemma delete_twice_reports_error :
  let tpl := testTemplate id in
  let s := initial (withTemplate healthy) in
  let once := deleteTemplate smoketest ns (Some tpl) s in
  let twice := deleteTemplate smoketest ns (Some tpl) once.2 in
  once.1 = Returned None /\
  twice.1 = Returned (Some notFound) /\
  (deleteSecret smoketest ns (Some (paramSecret templateName params)) s).1
  = Returned (Some notFound) /\
  (deleteTemplateInstance smoketest ns (Some (instanceWith [])) s).1
  = Returned (Some notFound).
Proof. cbv zeta. repeat split; vm_compute; reflexivity. Qed.

(** C2 at a concrete run: the launch fails at the creation of the instance,
    after that of the secret. *)
Lemma run_cleans_up_witness :
  exists (s0 : State Cluster) (body : list Entry) (defers : list Deferred),
    Run smoketest true 60 [] (initial occupied)
    = (Returned (0, Some ErrCreateInstance), s0) /\
    trace s0 = trace (initial occupied) ++ body /\
    forallb (fun entry => negb (isCleanup entry)) body = true /\
    CleansUp (namespace smoketest) [] (creates body) defers /\
    trace (Run smoketest false 60 [] (initial occupied)).2
    = trace s0 ++ cleanupTrace defers.
Proof.
  apply (run_cleans_up_once_in_reverse_order smoketest 60 [] (initial occupied)
           (Run smoketest false 60 [] (initial occupied)).2 0 (Some ErrCreateInstance)).
  vm_compute. reflexivity.
Defined.

(** The cleanup of that run, entry by entry: deleteTemplateInstance on nil,
    deleteSecret on the created secret with its one request, deleteTemplate
    on the created template with its one request. *)
Example cleanup_after_failed_instance :
  let run := Run smoketest false 60 [] (initial occupied) in
  run.1 = Returned (0, Some ErrCreateInstance) /\
  List.filter isCleanup (trace run.2)
  = [RunDeferred (DeferDeleteTemplateInstance ns None);
     RunDeferred (DeferDeleteSecret ns (Some secret));
     CallSecretsDelete ns "smoketest-template-1525000000-secret"
       {| PropagationPolicy := None |};
     RunDeferred (DeferDeleteTemplate ns (Some (testTemplate id)));
     CallTemplatesDelete ns templateName {| PropagationPolicy := None |}].
Proof. cbv zeta. split; vm_compute; reflexivity. Qed.

(** C4 at a concrete launch: one event without terminal condition, then the
    timer. *)
Lemma timeout_returns_elapsed_time_witness :
  (launchTemplateInstanceCheck smoketest ns templateName id 60 [modified []]
     (initial launchCluster)).1
  = Returned (Some (lastInstance request [modified []]), Some secret,
              Sub (time_Now (afterReads (length [modified []]) watching)).1 launchStart,
              Some ErrLaunchInstanceTimeout).
Proof.
  apply (timeout_returns_elapsed_time smoketest ns templateName id 60 [modified []]
           (initial launchCluster) (testTemplate id) fetched secret secretMade
           launchStart started request instanceMade 0%nat watching);
    vm_compute; reflexivity.
Defined.

(** The numbers of that launch: two and a half seconds from the launch
    start to the timeout. *)
Example timeout_after_one_event :
  (launchTemplateInstanceCheck smoketest ns templateName id 60 [modified []]
     (initial launchCluster)).1
  = Returned (Some (instanceWith []), Some secret, 2500000000,
              Some ErrLaunchInstanceTimeout).
Proof. vm_compute. reflexivity. Qed.

(** C5 at a concrete validation: the produced objects match. *)
Lemma validate_ok_witness :
  (validateTemplateInstance smoketest (instanceWith [ready]) (testTemplate id) params
     (initial healthy)).1 = Returned None.
Proof.
  destruct (validate_ok_iff smoketest (instanceWith [ready]) (testTemplate id) params
              (initial healthy)) as [Hok _].
  apply Hok. split; [reflexivity|]. split.
  - exists producedConfigMap. split; vm_compute; reflexivity.
  - exists (producedJob [bash]), bash, []. repeat split; vm_compute; reflexivity.
Defined.

(** C6 at a concrete launch: the instance cannot be created, the secret is
    returned. *)
Lemma launch_failures_witness :
  (launchTemplateInstanceCheck smoketest ns templateName id 60 []
     (initial (withTemplate occupied))).1
  = Returned (None, Some secret, 0, Some ErrCreateInstance).
Proof.
  destruct (launch_failures smoketest ns templateName id 60 []
              (initial (withTemplate occupied))) as (_ & _ & Hinstance).
  apply (Hinstance (testTemplate id)
           (Templates_Get ns templateName (withTemplate occupied)).2
           secret
           (Secrets_Create ns secret
              (Templates_Get ns templateName (withTemplate occupied)).2).2
           1525000000500000000
           (time_Now
              (Secrets_Create ns secret
                 (Templates_Get ns templateName (withTemplate occupied)).2).2).2
           None alreadyExists
           (TemplateInstances_Create ns request
              (time_Now
                 (Secrets_Create ns secret
                    (Templates_Get ns templateName (withTemplate occupied)).2).2).2).2);
    vm_compute; reflexivity.
Defined.


(** An event of another type and a JSON_PARAM that does not decode, on the
    same environment. *)
Example unknown_on_deleted_event :
  (Run smoketest true 60 [modified []; deleted] (initial healthy)).1
  = Returned (2500000000, Some ErrUnknown).
Proof. vm_compute. reflexivity. Qed.

Example unknown_on_malformed_json :
  (validateTemplateInstance smoketest (instanceWith [ready]) (testTemplate id)
     (<["JSON_PARAM" := "echo"]> params) (initial healthy)).1
  = Returned (Some ErrUnknown).
Proof. vm_compute. reflexivity. Qed.

(** C10 at a concrete validation: the job has no container. *)
Lemma validate_panics_witness :
  (validateTemplateInstance smoketest (instanceWith [ready]) (testTemplate id) params
     (initial (clusterWith []))).1 = Panicked IndexOutOfRange.
Proof.
  apply (validate_panics_on_empty_containers smoketest (instanceWith [ready])
           (testTemplate id) params (initial (clusterWith [])) producedConfigMap
           (tick callTime (clusterWith [])) (Some ["echo"; "Hello world"])
           (producedJob []) (tick callTime (tick callTime (clusterWith []))));
    vm_compute; reflexivity.
Defined.

(** C1 (as amended) at a concrete event: InstantiateFailure=true stands
    before Ready=true. *)
Lemma first_terminal_condition_witness :
  let s := initial watching in
  let now := time_Now (world s) in
  let stopped :=
    mkState (Watcher_Stop 0%nat now.2) (trace s ++ [CallWatcherStop 0%nat]) in
  watchLoop smoketest 0%nat (testTemplate id) params (Some secret) launchStart request
    (modified [failed; ready] :: []) s
  = (Returned (Some (instanceWith [failed; ready]), Some secret,
               Sub now.1 launchStart, Some ErrLaunchInstanceFailed), stopped).
Proof.
  cbv zeta.
  destruct (first_terminal_condition_decides smoketest 0%nat (testTemplate id) params
              (Some secret) launchStart request (instanceWith [failed; ready])
              (modified [failed; ready]) [] [] [ready] failed (initial watching)
              eq_refl eq_refl eq_refl eq_refl) as [_ Hfailure].
  apply Hfailure. reflexivity.
Defined.

(** C8 at a concrete run: after one event that leaves the watcher waiting,
    Ready=true is taken; the run keeps no objects. *)
Lemma launch_duration_witness :
  let s := initial healthy in
  let w0 := (time_Now (world s)).2 in
  let w1 := (Templates_Create ns (testTemplate id) w0).2 in
  let w2 := (Templates_Get ns templateName w1).2 in
  let w3 := (Secrets_Create ns secret w2).2 in
  let w4 := (time_Now w3).2 in
  let w5 := (TemplateInstances_Create ns request w4).2 in
  let w6 := (TemplateInstances_Watch ns (InstanceMeta request) w5).2 in
  let readyAt := time_Now (afterReads (length [modified []]) w6) in
  let stopped :=
    mkState (Watcher_Stop 0%nat readyAt.2)
      (trace s ++ [CallTemplatesCreate ns (testTemplate id) (Some (testTemplate id)) None;
                   CallTemplatesGet ns templateName;
                   CallSecretsCreate ns secret (Some secret) None;
                   CallInstancesCreate ns request (Some request) None;
                   CallInstancesWatch ns (InstanceMeta request);
                   CallWatcherStop 0%nat]) in
  let validated :=
    validateTemplateInstance smoketest (instanceWith [ready]) (testTemplate id) params
      stopped in
  (Run smoketest false 60 ([modified []] ++ modified [ready] :: []) s).1
  = match validated.1 with
    | Returned err => Returned (Sub readyAt.1 (time_Now w3).1, err)
    | Panicked p => Panicked p
    end.
Proof.
  cbv zeta.
  pose (w0 := (time_Now healthy).2).
  pose (w1 := (Templates_Create ns (testTemplate id) w0).2).
  pose (w2 := (Templates_Get ns templateName w1).2).
  pose (w3 := (Secrets_Create ns secret w2).2).
  pose (w4 := (time_Now w3).2).
  pose (w5 := (TemplateInstances_Create ns request w4).2).
  pose (w6 := (TemplateInstances_Watch ns (InstanceMeta request) w5).2).
  destruct (launch_duration_fixed_at_ready (W := Cluster) smoketest) as (Hfixed & _ & _).
  apply (Hfixed false 60 [modified []] [] (modified [ready]) (initial healthy)
           epoch w0 (testTemplate id) w1 (testTemplate id) w2 secret w3
           (time_Now w3).1 w4 request w5 0%nat w6 (instanceWith [ready]) [] [] ready);
    vm_compute; reflexivity.
Defined.

(** The numbers of a whole run: the launch starts a second and three
    quarters after the run; validation ends three seconds after the launch
    start; the duration returned is the second and a half at which the
    event was taken. *)
Example duration_excludes_validation :
  let run := Run smoketest true 60 [modified [ready]] (initial healthy) in
  run.1 = Returned (1500000000, None) /\
  Sub (clock (world run.2)) (epoch + 1750000000) = 3000000000.
Proof. cbv zeta. split; vm_compute; reflexivity. Qed.

(** Two remarks on the edges of the claims above.  reflect.DeepEqual keeps a
    nil map apart from an empty one: an instance with an empty, non-nil
    label map does not match a template without labels. *)
Example empty_labels_are_not_nil :
  let instance :=
    {| InstanceMeta := {| Name := "smoketest-template-1525000000-instance";
                          Labels := Some ∅ |};
       SpecTemplate := testTemplate id;
       SpecSecret := None;
       Conditions := [ready] |} in
  (validateTemplateInstance smoketest instance (testTemplate id) params
     (initial healthy)).1 = Returned (Some ErrInstanceInvalid).
Proof. vm_compute. reflexivity. Qed.

(** A run that panics in validation (C10) returns nothing; of its deferred
    calls only deleteTemplate was registered when the panic started, and it
    still runs. *)
Example panic_runs_the_deferred_template_delete :
  let run := Run smoketest false 60 [modified [ready]] (initial (clusterWith [])) in
  run.1 = Panicked IndexOutOfRange /\
  List.filter isCleanup (trace run.2)
  = [RunDeferred (DeferDeleteTemplate ns (Some (testTemplate id)));
     CallTemplatesDelete ns templateName {| PropagationPolicy := None |}].
Proof. cbv zeta. split; vm_compute; reflexivity. Qed.

(** C2, the exit path on which it fails: with keepObjects false, on a
    cluster whose job has no container, the run creates the template, the
    secret and the instance and then panics in validation.  Of the three
    deferred deletes only that of the template was registered, and it runs:
    the template is gone, while the secret and the instance that were
    created are never asked to be deleted and stay in the cluster. *)
Lemma panic_in_launch_leaves_secret_and_instance :
  let run := Run smoketest false 60 [modified [ready]] (initial (clusterWith [])) in
  run.1 = Panicked IndexOutOfRange /\
  creates (trace run.2)
  = [CallTemplatesCreate ns (testTemplate id) (Some (testTemplate id)) None;
     CallSecretsCreate ns secret (Some secret) None;
     CallInstancesCreate ns request (Some request) None] /\
  List.filter isCleanup (trace run.2)
  = [RunDeferred (DeferDeleteTemplate ns (Some (testTemplate id)));
     CallTemplatesDelete ns templateName {| PropagationPolicy := None |}] /\
  templates (world run.2) !! (ns, templateName) = None /\
  secrets (world run.2) !! (ns, Name (SecretMeta secret)) = Some secret /\
  instances (world run.2) !! (ns, Name (InstanceMeta request)) = Some request.
Proof. cbv zeta. repeat split; vm_compute; reflexivity. Qed.

End Scenario.

(** * Further concrete runs *)

Module Runs.

Import InMemory Fixtures.

(** X2 at a concrete run: the cluster answers the creation of the instance
    with its own already-exists error; Run returns ErrCreateInstance. *)
Lemma run_error_is_classified_witness :
  (Run smoketest true 60 [] (initial occupied)).1
  = Returned (0, Some ErrCreateInstance) /\
  classified (Some ErrCreateInstance) = true.
Proof.
  assert (Hrun : (Run smoketest true 60 [] (initial occupied)).1
                 = Returned (0, Some ErrCreateInstance))
    by (vm_compute; reflexivity).
  split; [exact Hrun|].
  exact (run_error_is_classified smoketest true 60 [] (initial occupied) 0
           (Some ErrCreateInstance) Hrun).
Defined.

(** X5 at a concrete stream: after an event without terminal condition and
    one with Ready=true, a further event changes nothing. *)
Lemma watch_ignores_what_follows_witness :
  watchLoop smoketest 0%nat (testTemplate id) params (Some secret) launchStart request
    ([modified []] ++ modified [ready] :: [deleted]) (initial watching)
  = watchLoop smoketest 0%nat (testTemplate id) params (Some secret) launchStart request
      ([modified []] ++ modified [ready] :: []) (initial watching).
Proof.
  apply (watch_ignores_what_follows smoketest 0%nat (testTemplate id) params
           (Some secret) launchStart request [modified []] [deleted] []
           (modified [ready]) (initial watching)); reflexivity.
Defined.

(** X7 at a concrete launch: the Modified event carries the instance that
    was created. *)
Lemma returned_instance_witness :
  exists made : list Entry,
    trace (launchTemplateInstanceCheck smoketest ns templateName id 60
             [modified [ready]] (initial launchCluster)).2
    = trace (initial launchCluster) ++ made /\
    (forall (req i : TemplateInstance),
       In (CallInstancesCreate ns req (Some i) None) made ->
       exists x, Some (instanceWith [ready]) = Some x /\
         ((forall event x',
             In event [modified [ready]] ->
             Object event = ObjTemplateInstance (Some x') ->
             Name (InstanceMeta x') = Name (InstanceMeta i)) ->
          Name (InstanceMeta x) = Name (InstanceMeta i))) /\
    ((forall (req i : TemplateInstance),
        ~ In (CallInstancesCreate ns req (Some i) None) made) ->
     Some (instanceWith [ready]) = None).
Proof.
  apply (returned_instance_has_created_name smoketest ns templateName id 60
           [modified [ready]] (initial launchCluster)
           (launchTemplateInstanceCheck smoketest ns templateName id 60
              [modified [ready]] (initial launchCluster)).2
           (Some (instanceWith [ready])) (Some secret) 1500000000 None).
  vm_compute. reflexivity.
Defined.

(** X12 at a concrete smoketest: the run succeeds. *)
Lemma smoketest_publishes_one_series_witness :
  let r := doSmoketest loaded true 60 [modified [ready]] noGauges (initial healthy) in
  exists (labels : string * string) (now : Time) (launch total : Duration),
    In labels labelSeries /\
    templateTestGauge (gaugesOf r) = <[labels := now]> (templateTestGauge noGauges) /\
    templateLaunchGauge (gaugesOf r) = <[labels := launch]> (templateLaunchGauge noGauges) /\
    totalDurationGauge (gaugesOf r) = <[labels := total]> (totalDurationGauge noGauges) /\
    forall other, other <> labels ->
      templateTestGauge (gaugesOf r) !! other = templateTestGauge noGauges !! other /\
      templateLaunchGauge (gaugesOf r) !! other = templateLaunchGauge noGauges !! other /\
      totalDurationGauge (gaugesOf r) !! other = totalDurationGauge noGauges !! other.
Proof.
  cbv zeta.
  apply (smoketest_publishes_one_series loaded true 60 [modified [ready]] noGauges
           (gaugesOf (doSmoketest loaded true 60 [modified [ready]] noGauges
                        (initial healthy)))
           (initial healthy)
           (doSmoketest loaded true 60 [modified [ready]] noGauges (initial healthy)).2).
  vm_compute. reflexivity.
Defined.

(** X13 at a concrete smoketest: the REST configuration cannot be loaded. *)
Lemma failed_init_witness :
  let s := initial healthy in
  let start := time_Now (world s) in
  let finish := time_Now start.2 in
  let published := time_Now finish.2 in
  let labels := ("failure", "InitTestFailed") in
  doSmoketest unloaded false 60 [modified [ready]] noGauges s
  = (Returned
       {| templateTestGauge := <[labels := published.1]> (templateTestGauge noGauges);
          templateLaunchGauge := <[labels := 0]> (templateLaunchGauge noGauges);
          totalDurationGauge :=
            <[labels := Sub finish.1 start.1]> (totalDurationGauge noGauges) |},
     mkState published.2 (trace s)).
Proof.
  apply (failed_init_publishes_without_calls unloaded false 60 [modified [ready]]
           noGauges (initial healthy)).
  exists LoadClientConfig. discriminate.
Defined.

(** X14 at a concrete smoketest: the launch fails on InstantiateFailure;
    the launch duration of Run is published under failure and
    LaunchTemplateInstanceFailed. *)
Lemma smoketest_publishes_run_witness :
  let s := initial healthy in
  let start := time_Now (world s) in
  let test := mkSmoketest (kubeconfig_Namespace loaded).1 in
  let s1 := (Run test true 60 [modified [failed]] (mkState start.2 (trace s))).2 in
  let finish := time_Now (world s1) in
  let published := time_Now finish.2 in
  let labels := resultLabels (Some ErrLaunchInstanceFailed) in
  doSmoketest loaded true 60 [modified [failed]] noGauges s
  = (Returned
       {| templateTestGauge := <[labels := published.1]> (templateTestGauge noGauges);
          templateLaunchGauge := <[labels := 1500000000]> (templateLaunchGauge noGauges);
          totalDurationGauge :=
            <[labels := Sub finish.1 start.1]> (totalDurationGauge noGauges) |},
     mkState published.2 (trace s1)).
Proof.
  cbv zeta.
  apply (smoketest_publishes_what_run_returned loaded true 60 [modified [failed]]
           noGauges (initial healthy)
           (Run (mkSmoketest (kubeconfig_Namespace loaded).1) true 60 [modified [failed]]
              (mkState (time_Now (world (initial healthy))).2
                 (trace (initial healthy)))).2
           1500000000 (Some ErrLaunchInstanceFailed)).
  - intros [| | | |]; reflexivity.
  - vm_compute. reflexivity.
Defined.

(** X15 at a concrete run: the instance cannot be created. *)
Lemma creation_errors_witness :
  (Run smoketest false 60 [modified [ready]] (initial occupied)).1
  = Returned (0, Some ErrCreateInstance) /\ 0 = 0.
Proof.
  assert (Hrun : (Run smoketest false 60 [modified [ready]] (initial occupied)).1
                 = Returned (0, Some ErrCreateInstance))
    by (vm_compute; reflexivity).
  split; [exact Hrun|].
  exact (creation_errors_have_zero_duration smoketest false 60 [modified [ready]]
           (initial occupied) 0 (Some ErrCreateInstance) Hrun
           (or_intror eq_refl)).
Defined.

(** X16 at a concrete run: the job of the cluster has no container, so
    validation panics after the secret and the instance were created. *)
Lemma panicking_run_witness :
  exists (body : list Entry) (ds : list Deferred),
    trace (Run smoketest false 60 [modified [ready]] (initial (clusterWith []))).2
    = trace (initial (clusterWith [])) ++ body ++ cleanupTrace ds /\
    forallb (fun entry => negb (isCleanup entry)) body = true /\
    (ds = [] \/ exists r, ds = [DeferDeleteTemplate (namespace smoketest) r]).
Proof.
  apply (panicking_run_deletes_the_template_only smoketest 60 [modified [ready]]
           (initial (clusterWith []))
           (Run smoketest false 60 [modified [ready]] (initial (clusterWith []))).2
           IndexOutOfRange).
  vm_compute. reflexivity.
Defined.

(** The numbers of two smoketests in a row on the same gauges: the first
    cannot load its configuration, the instance of the second fails; the
    series of the first is still there beside that of the second. *)
Example earlier_series_stays :
  let first := doSmoketest unloaded true 60 [] noGauges (initial healthy) in
  let second :=
    doSmoketest loaded true 60 [modified [failed]] (gaugesOf first) first.2 in
  map_to_list (templateLaunchGauge (gaugesOf second))
  = [("failure", "InitTestFailed", 0);
     ("failure", "LaunchTemplateInstanceFailed", 1500000000)].
Proof. cbv zeta. vm_compute. reflexivity. Qed.

End Runs.
